(** * MesmerGlass VR android client: native renderer, frame decoder, stereo split

    Shallow embedding of
      - app/src/main/cpp/frame_decoder.cpp   (class FrameDecoder)
      - app/src/main/cpp/stereo_renderer.cpp (class StereoRenderer)
      - app/src/main/cpp/vr_renderer.cpp     (class VRRenderer, JNI exports)

    The C++ methods mutate [this] and talk to OpenGL ES, EGL, the Android log
    and JNI.  They are embedded as computations in a state monad over a
    [Machine]: the trace of API calls issued so far, the log, the part of the
    GL context the code depends on (texture store, texture binding, error
    flag, clear colour, viewport, back buffer), and the function-local static
    of [renderFrame].  What a driver call returns is not decided by the
    program; it is read from an [Env], an arbitrary function of the call and
    of the trace before it. *)

From Stdlib Require Import ZArith Lia.
From stdpp Require Import base option list gmap strings.

Open Scope Z_scope.

(** ** 32-bit [int] arithmetic *)

Module Int.

Definition min_signed : Z := - 2 ^ 31.
Definition max_signed : Z := 2 ^ 31 - 1.

Definition in_range (z : Z) : Prop := min_signed <= z <= max_signed.

(** Signed overflow is undefined in C++; the embedding takes the
    two's-complement result the ARM and x86 targets compute. *)
Definition wrap (z : Z) : Z := (z + 2 ^ 31) mod 2 ^ 32 - 2 ^ 31.

Definition add (a b : Z) : Z := wrap (a + b).
Definition mul (a b : Z) : Z := wrap (a * b).

(** [/] and [%] truncate towards zero. *)
Definition div (a b : Z) : Z := wrap (Z.quot a b).
Definition rem (a b : Z) : Z := Z.rem a b.

End Int.

(** [uint8_t] conversion of an [int]. *)
Definition to_uint8 (z : Z) : Z := z mod 256.

(** ** Header constants (Khronos GLES3/gl3.h, EGL/egl.h, jni.h) *)

Definition GL_NO_ERROR : Z := 0.
Definition GL_INVALID_VALUE : Z := 0x0501.
Definition GL_FALSE : Z := 0.
Definition GL_TRIANGLES : Z := 0x0004.
Definition GL_DEPTH_BUFFER_BIT : Z := 0x00000100.
Definition GL_COLOR_BUFFER_BIT : Z := 0x00004000.
Definition GL_TEXTURE_2D : Z := 0x0DE1.
Definition GL_UNSIGNED_BYTE : Z := 0x1401.
Definition GL_FLOAT : Z := 0x1406.
Definition GL_RGB : Z := 0x1907.
Definition GL_LINEAR : Z := 0x2601.
Definition GL_TEXTURE_MAG_FILTER : Z := 0x2800.
Definition GL_TEXTURE_MIN_FILTER : Z := 0x2801.
Definition GL_TEXTURE_WRAP_S : Z := 0x2802.
Definition GL_TEXTURE_WRAP_T : Z := 0x2803.
Definition GL_CLAMP_TO_EDGE : Z := 0x812F.
Definition GL_TEXTURE0 : Z := 0x84C0.
Definition GL_ARRAY_BUFFER : Z := 0x8892.
Definition GL_STATIC_DRAW : Z := 0x88E4.
Definition GL_FRAGMENT_SHADER : Z := 0x8B30.
Definition GL_VERTEX_SHADER : Z := 0x8B31.
Definition GL_COMPILE_STATUS : Z := 0x8B81.
Definition GL_LINK_STATUS : Z := 0x8B82.

Definition EGL_DEFAULT_DISPLAY : Z := 0.
Definition EGL_NO_DISPLAY : Z := 0.
Definition EGL_NO_SURFACE : Z := 0.
Definition EGL_NO_CONTEXT : Z := 0.
Definition EGL_WINDOW_BIT : Z := 0x0004.
Definition EGL_OPENGL_ES3_BIT : Z := 0x0040.
Definition EGL_ALPHA_SIZE : Z := 0x3021.
Definition EGL_BLUE_SIZE : Z := 0x3022.
Definition EGL_GREEN_SIZE : Z := 0x3023.
Definition EGL_RED_SIZE : Z := 0x3024.
Definition EGL_DEPTH_SIZE : Z := 0x3025.
Definition EGL_NATIVE_VISUAL_ID : Z := 0x302E.
Definition EGL_SAMPLES : Z := 0x3031.
Definition EGL_SAMPLE_BUFFERS : Z := 0x3032.
Definition EGL_SURFACE_TYPE : Z := 0x3033.
Definition EGL_NONE : Z := 0x3038.
Definition EGL_RENDERABLE_TYPE : Z := 0x3040.
Definition EGL_CONTEXT_CLIENT_VERSION : Z := 0x3098.

Definition JNI_ABORT : Z := 2.
Definition nullptr : Z := 0.

(** ** The log *)

Inductive Priority := ANDROID_LOG_INFO | ANDROID_LOG_ERROR.

Inductive LogArg :=
| ArgInt (z : Z)
| ArgStr (s : string).

(** One [__android_log_print] line: priority, LOG_TAG, format, arguments. *)
Record LogEntry := mkLog {
  log_prio : Priority;
  log_tag : string;
  log_fmt : string;
  log_args : list LogArg
}.

Definition is_error (e : LogEntry) : bool :=
  match log_prio e with ANDROID_LOG_ERROR => true | ANDROID_LOG_INFO => false end.

(** ** API calls *)

(** The two shader texts of vr_renderer.cpp, named rather than spelled out. *)
Inductive ShaderText := VERTEX_SHADER | FRAGMENT_SHADER.

Inductive Call :=
(* shaders and programs *)
| glCreateShader (type : Z)
| glShaderSource (shader : Z) (source : ShaderText)
| glCompileShader (shader : Z)
| glGetShaderiv (shader pname : Z)
| glGetShaderInfoLog (shader bufSize : Z)
| glCreateProgram
| glAttachShader (program shader : Z)
| glLinkProgram (program : Z)
| glGetProgramiv (program pname : Z)
| glGetProgramInfoLog (program bufSize : Z)
| glDeleteShader (shader : Z)
| glDeleteProgram (program : Z)
| glGetUniformLocation (program : Z) (name : string)
| glUniform1i (location v : Z)
(* geometry *)
| glGenVertexArrays (n : Z)
| glGenBuffers (n : Z)
| glBindVertexArray (array : Z)
| glBindBuffer (target buffer : Z)
| glBufferData (target size : Z) (data : list Z) (usage : Z)
| glVertexAttribPointer (index size type normalized stride offset : Z)
| glEnableVertexAttribArray (index : Z)
| glDeleteVertexArrays (array : Z)
| glDeleteBuffers (buffer : Z)
| glDrawArrays (mode first count : Z)
(* textures *)
| glGenTextures (n : Z)
| glBindTexture (target texture : Z)
| glTexParameteri (target pname param : Z)
| glTexImage2D (target level internalformat width height border format type : Z)
               (pixels : list Z)
| glActiveTexture (texture : Z)
| glDeleteTextures (texture : Z)
(* framebuffer *)
| glViewport (x y width height : Z)
| glClearColor (red green blue alpha : Z)
| glClear (mask : Z)
| glGetError
(* EGL *)
| eglGetDisplay (display_id : Z)
| eglInitialize (dpy : Z)
| eglChooseConfig (dpy : Z) (attrib_list : list Z) (config_size : Z)
| eglGetConfigAttrib (dpy config attribute : Z)
| eglCreateWindowSurface (dpy config win : Z)
| eglCreateContext (dpy config share_context : Z) (attrib_list : list Z)
| eglMakeCurrent (dpy draw read ctx : Z)
| eglSwapInterval (dpy interval : Z)
| eglSwapBuffers (dpy surface : Z)
| eglGetError
| eglDestroyContext (dpy ctx : Z)
| eglDestroySurface (dpy surface : Z)
| eglTerminate (dpy : Z)
(* Android and JNI *)
| ANativeWindow_fromSurface (surface : Z)
| ANativeWindow_setBuffersGeometry (window width height format : Z)
| ANativeWindow_release (window : Z)
| GetByteArrayElements (array : list Z)
| ReleaseByteArrayElements (array : list Z) (mode : Z).

Definition is_draw (c : Call) : bool :=
  match c with glDrawArrays _ _ _ => true | _ => false end.

Definition is_viewport (c : Call) : bool :=
  match c with glViewport _ _ _ _ => true | _ => false end.

Definition is_bind_texture (c : Call) : bool :=
  match c with glBindTexture _ _ => true | _ => false end.

Definition is_swap (c : Call) : bool :=
  match c with eglSwapBuffers _ _ => true | _ => false end.

(** Calls that give a resource back to the driver or the system. *)
Definition is_release (c : Call) : bool :=
  match c with
  | glDeleteVertexArrays _ | glDeleteBuffers _ | glDeleteTextures _
  | glDeleteProgram _ | glDeleteShader _
  | eglDestroyContext _ _ | eglDestroySurface _ _ | eglTerminate _
  | ANativeWindow_release _ => true
  | _ => false
  end.

(** ** The environment *)

(** What the driver answers.  [env_ret] is the value a call returns (for a
    [void] call with one out-parameter, the value written through it);
    [env_out] is the value written through the out-parameter of a call that
    also returns a status; [env_str] is the text of an info log.  Each is a
    function of the trace before the call and of the call.

    Two answers are not values the program receives.  For glTexImage2D,
    which returns nothing, [env_ret] is 0 when the image is larger than the
    implementation's GL_MAX_TEXTURE_SIZE; it is only consulted for an image
    above the size every implementation supports.  For eglMakeCurrent,
    [env_size] is the width and height of the draw surface when the call
    makes its context current for the first time, and [None] otherwise. *)
Record Env := mkEnv {
  env_ret : list Call -> Call -> Z;
  env_out : list Call -> Call -> Z;
  env_str : list Call -> Call -> string;
  env_size : list Call -> Call -> option (Z * Z)
}.

(** ** The part of the GL context the code depends on *)

(** A texture image as [glTexImage2D] specified it: the dimensions given and
    the client buffer the texels were read from. *)
Record TexImage := mkTexImage {
  img_width : Z;
  img_height : Z;
  img_pixels : list Z
}.

Record Rect := mkRect { rx : Z; ry : Z; rw : Z; rh : Z }.

Record Color := mkColor { red : Z; green : Z; blue : Z; alpha : Z }.

(** Contents of a colour buffer, kept symbolically: cleared to one colour,
    or what a draw command left of an earlier content.  Which pixels a draw
    writes depends on the program in use and on the vertex array bound;
    the sources never call glUseProgram, and the state below holds neither,
    so a drawn buffer is given no pixels. *)
Inductive Frame :=
| Cleared (c : Color)
| Drawn (under : Frame).

Record GLState := mkGL {
  gl_textures : gmap Z TexImage;   (* texture name -> image *)
  gl_bound : Z;                    (* GL_TEXTURE_2D binding *)
  gl_error : Z;                    (* recorded error, GL_NO_ERROR if none *)
  gl_clear_color : Color;
  gl_viewport : Rect;              (* as last given by glViewport or by EGL *)
  gl_back : Frame;                 (* back buffer of the window surface *)
  gl_front : option Frame          (* what the last successful swap showed *)
}.

Definition set_textures (t : gmap Z TexImage) (g : GLState) : GLState :=
  mkGL t (gl_bound g) (gl_error g) (gl_clear_color g) (gl_viewport g)
       (gl_back g) (gl_front g).
Definition set_bound (b : Z) (g : GLState) : GLState :=
  mkGL (gl_textures g) b (gl_error g) (gl_clear_color g) (gl_viewport g)
       (gl_back g) (gl_front g).
Definition set_error (e : Z) (g : GLState) : GLState :=
  mkGL (gl_textures g) (gl_bound g) e (gl_clear_color g) (gl_viewport g)
       (gl_back g) (gl_front g).
Definition set_clear_color (c : Color) (g : GLState) : GLState :=
  mkGL (gl_textures g) (gl_bound g) (gl_error g) c (gl_viewport g)
       (gl_back g) (gl_front g).
Definition set_viewport (v : Rect) (g : GLState) : GLState :=
  mkGL (gl_textures g) (gl_bound g) (gl_error g) (gl_clear_color g) v
       (gl_back g) (gl_front g).
Definition set_back (f : Frame) (g : GLState) : GLState :=
  mkGL (gl_textures g) (gl_bound g) (gl_error g) (gl_clear_color g)
       (gl_viewport g) f (gl_front g).
Definition set_front (f : option Frame) (g : GLState) : GLState :=
  mkGL (gl_textures g) (gl_bound g) (gl_error g) (gl_clear_color g)
       (gl_viewport g) (gl_back g) f.

(** An erroneous command is ignored and records its code unless a code is
    already recorded (OpenGL ES 3.0, section 2.5). *)
Definition raise_error (e : Z) (g : GLState) : GLState :=
  if decide (gl_error g = GL_NO_ERROR) then set_error e g else g.

(** The minimum of GL_MAX_TEXTURE_SIZE in OpenGL ES 3.0: every
    implementation accepts a texture image of this width and height. *)
Definition min_max_texture_size : Z := 2048.

(** Effect of a GL command or of a buffer swap on the context, given the
    answer [r] of the environment.  Only the commands whose effect the code
    or its properties depend on change the state.  glTexImage2D and
    glViewport reject a negative size; glTexImage2D also rejects an image
    above [min_max_texture_size] that the implementation does not support
    ([r] is 0).  [gl_viewport] keeps the rectangle as glViewport was given
    it: the clamping of its width and height to GL_MAX_VIEWPORT_DIMS, which
    the command applies silently, is not recorded. *)
Definition gl_step (c : Call) (r : Z) (g : GLState) : GLState :=
  match c with
  | glBindTexture _ texture => set_bound texture g
  | glTexImage2D _ _ _ width height _ _ _ pixels =>
      if decide (width < 0 \/ height < 0) then raise_error GL_INVALID_VALUE g
      else if decide ((min_max_texture_size < width
                       \/ min_max_texture_size < height) /\ r = 0)
      then raise_error GL_INVALID_VALUE g
      else set_textures
             (<[gl_bound g := mkTexImage width height pixels]> (gl_textures g)) g
  | glDeleteTextures texture =>
      set_textures (delete texture (gl_textures g))
        (if decide (gl_bound g = texture) then set_bound 0 g else g)
  | glGetError => set_error GL_NO_ERROR g
  | glClearColor r g' b a => set_clear_color (mkColor r g' b a) g
  | glClear mask =>
      if Z.testbit mask 14 then set_back (Cleared (gl_clear_color g)) g else g
  | glViewport x y width height =>
      if decide (width < 0 \/ height < 0) then raise_error GL_INVALID_VALUE g
      else set_viewport (mkRect x y width height) g
  | glDrawArrays _ _ _ => set_back (Drawn (gl_back g)) g
  | eglSwapBuffers _ _ =>
      if decide (r = 0) then g else set_front (Some (gl_back g)) g
  | _ => g
  end.

(** Effect of a call on the context of the calling thread.  The first time
    a context is made current, EGL sets its viewport to the size of the draw
    surface (EGL 1.4, section 3.7.3); every other call acts by [gl_step]. *)
Definition driver_step (e : Env) (t : list Call) (c : Call) (r : Z)
    (g : GLState) : GLState :=
  match c with
  | eglMakeCurrent _ _ _ ctx =>
      if decide (ctx = EGL_NO_CONTEXT \/ r = 0) then g
      else match env_size e t c with
           | Some (w, h) => set_viewport (mkRect 0 0 w h) g
           | None => g
           end
  | _ => gl_step c r g
  end.

(** ** The machine and its monad *)

Record Machine := mkMachine {
  trace : list Call;       (* API calls issued, oldest first *)
  logs : list LogEntry;    (* log lines written, oldest first *)
  gl : GLState;
  frameCount : Z;          (* [static int frameCount] of renderFrame *)
  env : Env
}.

Definition M (A : Type) : Type := Machine -> A * Machine.

Definition ret {A} (a : A) : M A := fun m => (a, m).

Definition bind {A B} (c : M A) (k : A -> M B) : M B :=
  fun m => let (a, m') := c m in k a m'.

Declare Scope monad_scope.
Delimit Scope monad_scope with monad.
Notation "x <- c ;; k" := (bind c (fun x => k))
  (at level 100, c at next level, right associativity) : monad_scope.
Notation "c ;; k" := (bind c (fun _ => k))
  (at level 100, right associativity) : monad_scope.
Open Scope monad_scope.

Definition exec {A} (c : M A) (m : Machine) : Machine := snd (c m).
Definition eval {A} (c : M A) (m : Machine) : A := fst (c m).

(** Value returned by a call: [glGetError] reads the recorded error, every
    other answer comes from the environment. *)
Definition answer (c : Call) (m : Machine) : Z :=
  match c with
  | glGetError => gl_error (gl m)
  | _ => env_ret (env m) (trace m) c
  end.

Definition api (c : Call) : M Z := fun m =>
  let r := answer c m in
  (r, mkMachine (trace m ++ [c]) (logs m)
                (driver_step (env m) (trace m) c r (gl m))
                (frameCount m) (env m)).

(** A call that returns a status and writes one out-parameter. *)
Definition api_out (c : Call) : M (Z * Z) := fun m =>
  let r := answer c m in
  ((r, env_out (env m) (trace m) c),
   mkMachine (trace m ++ [c]) (logs m)
             (driver_step (env m) (trace m) c r (gl m))
             (frameCount m) (env m)).

(** A call that fills a character buffer. *)
Definition api_str (c : Call) : M string := fun m =>
  (env_str (env m) (trace m) c,
   mkMachine (trace m ++ [c]) (logs m)
             (driver_step (env m) (trace m) c 0 (gl m))
             (frameCount m) (env m)).

Definition log_print (p : Priority) (tag fmt : string) (args : list LogArg)
  : M unit := fun m =>
  (tt, mkMachine (trace m) (logs m ++ [mkLog p tag fmt args]) (gl m)
                 (frameCount m) (env m)).

Definition when (b : bool) (c : M unit) : M unit :=
  if b then c else ret tt.

Definition nonzero (z : Z) : bool := negb (z =? 0).

Definition incr_frameCount : M Z := fun m =>
  let n := Int.add (frameCount m) 1 in
  (n, mkMachine (trace m) (logs m) (gl m) n (env m)).

(** [for (int i = 0; i < n; i++) body], threading the loop's variable. *)
Definition for_range {S} (n : Z) (body : Z -> S -> S) (s : S) : S :=
  foldl (fun acc i => body i acc) s (seqZ 0 n).

(** ** std::vector<uint8_t> *)

Inductive Exception := length_error.

(** [v.resize(n)] with an [int] argument: the conversion to [size_t] sends a
    negative [n] above [max_size()], and resize throws; otherwise the first
    [n] elements are kept and the rest is zero-filled. *)
Definition vector_resize (n : Z) (v : list Z) : Exception + list Z :=
  if decide (n < 0) then inl length_error
  else inr (take (Z.to_nat n) v ++ replicate (Z.to_nat n - length v) 0).

Definition vector_size (v : list Z) : Z := Z.of_nat (length v).

(** ** frame_decoder.cpp *)

Module FrameDecoder.

Definition LOG_TAG : string := "FrameDecoder".

Record t := mk {
  width : Z;
  height : Z;
  rgbBuffer : list Z
}.

(** [FrameDecoder(int w = 1024, int h = 1024)].  An exception leaving the
    constructor leaves no object. *)
Definition new (w h : Z) : Exception + t :=
  match vector_resize (Int.mul (Int.mul w h) 3) [] with
  | inl e => inl e
  | inr buf => inr (mk w h buf)
  end.

Definition new_default : Exception + t := new 1024 1024.

(** [bool decodeJPEG(const uint8_t* jpegData, int jpegSize, uint8_t* outRGB)].
    The buffer behind [outRGB] is passed in and returned; the body never
    writes to it. *)
Definition decodeJPEG (d : t) (jpegData : list Z) (jpegSize : Z)
    (outRGB : list Z) : M (bool * list Z) :=
  log_print ANDROID_LOG_INFO LOG_TAG "Decoding JPEG: %d bytes"
            [ArgInt jpegSize];;
  ret (true, outRGB).


(** [void setDimensions(int w, int h)].  The fields are assigned before
    the resize, so they are already overwritten when resize throws. *)
Definition setDimensions (w h : Z) (d : t) : Exception * t + t :=
  let d1 := mk w h (rgbBuffer d) in
  match vector_resize (Int.mul (Int.mul (width d1) (height d1)) 3)
                      (rgbBuffer d1) with
  | inl e => inl (e, d1)
  | inr buf => inr (mk w h buf)
  end.

(** The invariant of the scratch buffer. *)
Definition buffer_ok (d : t) : Prop :=
  vector_size (rgbBuffer d) = width d * height d * 3.

End FrameDecoder.

(** ** stereo_renderer.cpp *)

Module StereoRenderer.

Definition LOG_TAG : string := "StereoRenderer".

Record t := mk {
  viewportWidth : Z;
  viewportHeight : Z
}.

Definition new : t := mk 0 0.

Definition setViewport (width height : Z) (s : t) : M t :=
  log_print ANDROID_LOG_INFO LOG_TAG "Stereo viewport: %dx%d"
            [ArgInt width; ArgInt height];;
  ret (mk width height).

(** The rectangle each setup method hands to [glViewport]. *)
Definition leftRect (s : t) : Rect :=
  mkRect 0 0 (Int.div (viewportWidth s) 2) (viewportHeight s).

Definition rightRect (s : t) : Rect :=
  mkRect (Int.div (viewportWidth s) 2) 0
         (Int.div (viewportWidth s) 2) (viewportHeight s).

Definition setupLeftEye (s : t) : M unit :=
  api (glViewport 0 0 (Int.div (viewportWidth s) 2) (viewportHeight s));;
  ret tt.

Definition setupRightEye (s : t) : M unit :=
  api (glViewport (Int.div (viewportWidth s) 2) 0
                  (Int.div (viewportWidth s) 2) (viewportHeight s));;
  ret tt.

(** [getProjectionMatrix]: the identity, whichever the eye.  The entries
    are the floats 1.0f and 0.0f, kept as 1 and 0. *)
Definition getProjectionMatrix (s : t) (isLeftEye : bool) : list Z :=
  (fun i => if decide (Int.rem i 5 = 0) then 1 else 0) <$> seqZ 0 16.

End StereoRenderer.

(** Columns a viewport rectangle covers. *)
Definition covers (r : Rect) (x : Z) : Prop := rx r <= x < rx r + rw r.

(** ** vr_renderer.cpp *)

Module VRRenderer.

Definition LOG_TAG : string := "VRRenderer".

Definition LOGI (fmt : string) (args : list LogArg) : M unit :=
  log_print ANDROID_LOG_INFO LOG_TAG fmt args.
Definition LOGE (fmt : string) (args : list LogArg) : M unit :=
  log_print ANDROID_LOG_ERROR LOG_TAG fmt args.

Record t := mk {
  display : Z;
  surface : Z;
  context : Z;
  window : Z;
  shaderProgram : Z;
  vao : Z;
  vbo : Z;
  leftEyeTexture : Z;
  rightEyeTexture : Z;
  currentEyeTexture : Z;
  viewportWidth : Z;
  viewportHeight : Z;
  renderTime : nat   (* a float: the number of [+= 0.016f] steps taken *)
}.

(** [const float fullScreenTriangle[18]]: twelve initialisers, the rest
    zero; all entries are integral floats. *)
Definition fullScreenTriangle : list Z :=
  [ -1; -1; 0; 0;
     3; -1; 2; 0;
    -1;  3; 0; 2;
     0;  0; 0; 0; 0; 0 ].

Definition sizeof_float : Z := 4.

(** [VRRenderer()] *)
Definition new : t :=
  mk EGL_NO_DISPLAY EGL_NO_SURFACE EGL_NO_CONTEXT nullptr 0 0 0 0 0 0 0 0 O.

Definition compileShader (type : Z) (source : ShaderText) : M Z :=
  shader <- api (glCreateShader type);;
  api (glShaderSource shader source);;
  api (glCompileShader shader);;
  success <- api (glGetShaderiv shader GL_COMPILE_STATUS);;
  if decide (success = 0) then
    infoLog <- api_str (glGetShaderInfoLog shader 512);;
    LOGE "Shader compilation failed: %s" [ArgStr infoLog];;
    ret 0
  else ret shader.

Definition createShaderProgram (vertexSource fragmentSource : ShaderText)
    : M Z :=
  vertexShader <- compileShader GL_VERTEX_SHADER vertexSource;;
  fragmentShader <- compileShader GL_FRAGMENT_SHADER fragmentSource;;
  if decide (vertexShader = 0 \/ fragmentShader = 0) then ret 0
  else
    program <- api glCreateProgram;;
    api (glAttachShader program vertexShader);;
    api (glAttachShader program fragmentShader);;
    api (glLinkProgram program);;
    success <- api (glGetProgramiv program GL_LINK_STATUS);;
    if decide (success = 0) then
      infoLog <- api_str (glGetProgramInfoLog program 512);;
      LOGE "Shader program linking failed: %s" [ArgStr infoLog];;
      ret 0
    else
      api (glDeleteShader vertexShader);;
      api (glDeleteShader fragmentShader);;
      ret program.

Definition createTexture : M Z :=
  texture <- api (glGenTextures 1);;
  api (glBindTexture GL_TEXTURE_2D texture);;
  api (glTexParameteri GL_TEXTURE_2D GL_TEXTURE_MIN_FILTER GL_LINEAR);;
  api (glTexParameteri GL_TEXTURE_2D GL_TEXTURE_MAG_FILTER GL_LINEAR);;
  api (glTexParameteri GL_TEXTURE_2D GL_TEXTURE_WRAP_S GL_CLAMP_TO_EDGE);;
  api (glTexParameteri GL_TEXTURE_2D GL_TEXTURE_WRAP_T GL_CLAMP_TO_EDGE);;
  ret texture.

Definition set_shaderProgram (p : Z) (r : t) : t :=
  mk (display r) (surface r) (context r) (window r) p (vao r) (vbo r)
     (leftEyeTexture r) (rightEyeTexture r) (currentEyeTexture r)
     (viewportWidth r) (viewportHeight r) (renderTime r).
Definition set_geometry (a b : Z) (r : t) : t :=
  mk (display r) (surface r) (context r) (window r) (shaderProgram r) a b
     (leftEyeTexture r) (rightEyeTexture r) (currentEyeTexture r)
     (viewportWidth r) (viewportHeight r) (renderTime r).
Definition set_leftEyeTexture (x : Z) (r : t) : t :=
  mk (display r) (surface r) (context r) (window r) (shaderProgram r)
     (vao r) (vbo r) x (rightEyeTexture r) (currentEyeTexture r)
     (viewportWidth r) (viewportHeight r) (renderTime r).
Definition set_rightEyeTexture (x : Z) (r : t) : t :=
  mk (display r) (surface r) (context r) (window r) (shaderProgram r)
     (vao r) (vbo r) (leftEyeTexture r) x (currentEyeTexture r)
     (viewportWidth r) (viewportHeight r) (renderTime r).
Definition set_window (x : Z) (r : t) : t :=
  mk (display r) (surface r) (context r) x (shaderProgram r)
     (vao r) (vbo r) (leftEyeTexture r) (rightEyeTexture r)
     (currentEyeTexture r) (viewportWidth r) (viewportHeight r)
     (renderTime r).
Definition set_display (x : Z) (r : t) : t :=
  mk x (surface r) (context r) (window r) (shaderProgram r)
     (vao r) (vbo r) (leftEyeTexture r) (rightEyeTexture r)
     (currentEyeTexture r) (viewportWidth r) (viewportHeight r)
     (renderTime r).
Definition set_surface (x : Z) (r : t) : t :=
  mk (display r) x (context r) (window r) (shaderProgram r)
     (vao r) (vbo r) (leftEyeTexture r) (rightEyeTexture r)
     (currentEyeTexture r) (viewportWidth r) (viewportHeight r)
     (renderTime r).
Definition set_context (x : Z) (r : t) : t :=
  mk (display r) (surface r) x (window r) (shaderProgram r)
     (vao r) (vbo r) (leftEyeTexture r) (rightEyeTexture r)
     (currentEyeTexture r) (viewportWidth r) (viewportHeight r)
     (renderTime r).
Definition set_viewport_size (w h : Z) (r : t) : t :=
  mk (display r) (surface r) (context r) (window r) (shaderProgram r)
     (vao r) (vbo r) (leftEyeTexture r) (rightEyeTexture r)
     (currentEyeTexture r) w h (renderTime r).
Definition tick (r : t) : t :=
  mk (display r) (surface r) (context r) (window r) (shaderProgram r)
     (vao r) (vbo r) (leftEyeTexture r) (rightEyeTexture r)
     (currentEyeTexture r) (viewportWidth r) (viewportHeight r)
     (S (renderTime r)).

(** [bool initialize()] *)
Definition initialize (r : t) : M (bool * t) :=
  LOGI "Initializing VR Renderer" [];;
  program <- createShaderProgram VERTEX_SHADER FRAGMENT_SHADER;;
  let r := set_shaderProgram program r in
  if decide (shaderProgram r = 0) then
    LOGE "Failed to create shader program" [];;
    ret (false, r)
  else
    a <- api (glGenVertexArrays 1);;
    b <- api (glGenBuffers 1);;
    let r := set_geometry a b r in
    api (glBindVertexArray (vao r));;
    api (glBindBuffer GL_ARRAY_BUFFER (vbo r));;
    api (glBufferData GL_ARRAY_BUFFER (18 * sizeof_float)
                      fullScreenTriangle GL_STATIC_DRAW);;
    api (glVertexAttribPointer 0 2 GL_FLOAT GL_FALSE (4 * sizeof_float) 0);;
    api (glEnableVertexAttribArray 0);;
    api (glVertexAttribPointer 1 2 GL_FLOAT GL_FALSE (4 * sizeof_float)
                               (2 * sizeof_float));;
    api (glEnableVertexAttribArray 1);;
    api (glBindVertexArray 0);;
    l <- createTexture;;
    let r := set_leftEyeTexture l r in
    rt <- createTexture;;
    let r := set_rightEyeTexture rt r in
    LOGI "VR Renderer initialized successfully" [];;
    ret (true, r).

Definition configAttribs : list Z :=
  [ EGL_RENDERABLE_TYPE; EGL_OPENGL_ES3_BIT;
    EGL_SURFACE_TYPE; EGL_WINDOW_BIT;
    EGL_RED_SIZE; 8;
    EGL_GREEN_SIZE; 8;
    EGL_BLUE_SIZE; 8;
    EGL_ALPHA_SIZE; 8;
    EGL_DEPTH_SIZE; 16;
    EGL_SAMPLE_BUFFERS; 1;
    EGL_SAMPLES; 4;
    EGL_NONE ].

Definition contextAttribs : list Z :=
  [ EGL_CONTEXT_CLIENT_VERSION; 3; EGL_NONE ].

(** [bool initializeEGL(ANativeWindow* nativeWindow)] *)
Definition initializeEGL (nativeWindow : Z) (r : t) : M (bool * t) :=
  let r := set_window nativeWindow r in
  d <- api (eglGetDisplay EGL_DEFAULT_DISPLAY);;
  let r := set_display d r in
  if decide (display r = EGL_NO_DISPLAY) then
    LOGE "Failed to get EGL display" [];;
    ret (false, r)
  else
    ok <- api (eglInitialize (display r));;
    if decide (ok = 0) then
      LOGE "Failed to initialize EGL" [];;
      ret (false, r)
    else
      chosen <- api_out (eglChooseConfig (display r) configAttribs 1);;
      let config := snd chosen in
      if decide (fst chosen = 0) then
        LOGE "Failed to choose EGL config" [];;
        ret (false, r)
      else
        attrib <- api_out (eglGetConfigAttrib (display r) config
                                              EGL_NATIVE_VISUAL_ID);;
        let format := snd attrib in
        api (ANativeWindow_setBuffersGeometry (window r) 0 0 format);;
        s <- api (eglCreateWindowSurface (display r) config (window r));;
        let r := set_surface s r in
        if decide (surface r = EGL_NO_SURFACE) then
          LOGE "Failed to create EGL surface" [];;
          ret (false, r)
        else
          c <- api (eglCreateContext (display r) config EGL_NO_CONTEXT
                                     contextAttribs);;
          let r := set_context c r in
          if decide (context r = EGL_NO_CONTEXT) then
            LOGE "Failed to create EGL context" [];;
            ret (false, r)
          else
            current <- api (eglMakeCurrent (display r) (surface r)
                                           (surface r) (context r));;
            if decide (current = 0) then
              LOGE "Failed to make EGL context current" [];;
              ret (false, r)
            else
              api (eglSwapInterval (display r) 1);;
              LOGI "EGL initialized successfully" [];;
              ret (true, r).

(** [void setViewport(int width, int height)] *)
Definition setViewport (width height : Z) (r : t) : M t :=
  let r := set_viewport_size width height r in
  LOGI "Viewport set to %dx%d (per-eye: %dx%d)"
       [ArgInt width; ArgInt height; ArgInt (Int.div width 2);
        ArgInt height];;
  ret r.

(** The two guards of [renderFrame]. *)
Definition no_window (r : t) : Prop := window r = nullptr.
Definition invalid_egl (r : t) : Prop :=
  display r = EGL_NO_DISPLAY \/ surface r = EGL_NO_SURFACE
  \/ context r = EGL_NO_CONTEXT.

(** [void renderFrame()] *)
Definition renderFrame (r : t) : M t :=
  if decide (no_window r) then
    LOGE "renderFrame: No window!" [];;
    ret r
  else if decide (invalid_egl r) then
    LOGE "renderFrame: Invalid EGL state!" [];;
    ret r
  else
    let r := tick r in
    api (glClearColor 1 0 1 1);;
    api (glClear (Z.lor GL_COLOR_BUFFER_BIT GL_DEPTH_BUFFER_BIT));;
    err <- api glGetError;;
    when (nonzero err) (LOGE "OpenGL error after clear: 0x%x" [ArgInt err]);;
    swapped <- api (eglSwapBuffers (display r) (surface r));;
    (if decide (swapped = 0) then
       error <- api eglGetError;;
       LOGE "eglSwapBuffers failed! Error: 0x%x" [ArgInt error]
     else ret tt);;
    n <- incr_frameCount;;
    when (Int.rem n 60 =? 0)
         (LOGI "Rendered frame %d - MAGENTA SHOULD BE VISIBLE" [ArgInt n]);;
    ret r.

(** [void renderEye(GLuint eyeTexture, int x, int y, int width, int height)] *)
Definition renderEye (eyeTexture x y width height : Z) (r : t) : M unit :=
  api (glViewport x y width height);;
  api (glActiveTexture GL_TEXTURE0);;
  api (glBindTexture GL_TEXTURE_2D eyeTexture);;
  texLocation <- api (glGetUniformLocation (shaderProgram r) "uTexture");;
  api (glUniform1i texLocation 0);;
  api (glDrawArrays GL_TRIANGLES 0 3);;
  ret tt.

(** The test pattern of [updateTexture]: a zero-filled vector of
    [texWidth * texHeight * 3] bytes, written pixel by pixel.  Every index
    the loops compute is inside the vector. *)
Definition patternPixel (texWidth texHeight y x : Z) (p : list Z)
    : list Z :=
  let idx := Int.mul (Int.add (Int.mul y texWidth) x) 3 in
  let p := <[Z.to_nat (idx + 0) :=
               to_uint8 (Int.div (Int.mul x 255) texWidth)]> p in
  let p := <[Z.to_nat (idx + 1) :=
               to_uint8 (Int.div (Int.mul y 255) texHeight)]> p in
  <[Z.to_nat (idx + 2) := 128]> p.

Definition patternOf (texWidth texHeight : Z) : list Z :=
  for_range texHeight
    (fun y => for_range texWidth (patternPixel texWidth texHeight y))
    (replicate (Z.to_nat (Int.mul (Int.mul texWidth texHeight) 3)) 0).

Definition texWidth : Z := 1024.
Definition texHeight : Z := 1024.
Definition testPattern : list Z := patternOf texWidth texHeight.

(** [void updateTexture(const uint8_t* leftData, int leftSize,
                        const uint8_t* rightData, int rightSize)] *)
Definition updateTexture (leftData : list Z) (leftSize : Z)
    (rightData : list Z) (rightSize : Z) (r : t) : M unit :=
  LOGI "updateTexture called: left=%d bytes, right=%d bytes"
       [ArgInt leftSize; ArgInt rightSize];;
  api (glBindTexture GL_TEXTURE_2D (leftEyeTexture r));;
  api (glTexImage2D GL_TEXTURE_2D 0 GL_RGB texWidth texHeight 0
                    GL_RGB GL_UNSIGNED_BYTE testPattern);;
  api (glBindTexture GL_TEXTURE_2D (rightEyeTexture r));;
  api (glTexImage2D GL_TEXTURE_2D 0 GL_RGB texWidth texHeight 0
                    GL_RGB GL_UNSIGNED_BYTE testPattern);;
  api (glBindTexture GL_TEXTURE_2D 0);;
  LOGI "Textures updated with test pattern" [].

Definition call_if (b : bool) (c : Call) : M unit :=
  when b (api c;; ret tt).

(** [void cleanup()] *)
Definition cleanup (r : t) : M unit :=
  call_if (nonzero (vao r)) (glDeleteVertexArrays (vao r));;
  call_if (nonzero (vbo r)) (glDeleteBuffers (vbo r));;
  call_if (nonzero (leftEyeTexture r)) (glDeleteTextures (leftEyeTexture r));;
  call_if (nonzero (rightEyeTexture r))
          (glDeleteTextures (rightEyeTexture r));;
  call_if (nonzero (shaderProgram r)) (glDeleteProgram (shaderProgram r));;
  (if decide (display r <> EGL_NO_DISPLAY) then
     api (eglMakeCurrent (display r) EGL_NO_SURFACE EGL_NO_SURFACE
                         EGL_NO_CONTEXT);;
     call_if (bool_decide (context r <> EGL_NO_CONTEXT))
             (eglDestroyContext (display r) (context r));;
     call_if (bool_decide (surface r <> EGL_NO_SURFACE))
             (eglDestroySurface (display r) (surface r));;
     api (eglTerminate (display r));;
     ret tt
   else ret tt);;
  call_if (nonzero (window r)) (ANativeWindow_release (window r)).

End VRRenderer.

(** ** JNI exports *)

Module JNI.

(** [static VRRenderer* g_renderer]: [None] is the null pointer, [Some r]
    points to the heap object [r]. *)
Definition renderer_ptr : Type := option VRRenderer.t.

Definition nativeOnCreate (g_renderer : renderer_ptr) : M renderer_ptr :=
  VRRenderer.LOGI "nativeOnCreate" [];;
  ret (Some VRRenderer.new).

Definition nativeOnDestroy (g_renderer : renderer_ptr) : M renderer_ptr :=
  VRRenderer.LOGI "nativeOnDestroy" [];;
  match g_renderer with
  | Some r =>
      VRRenderer.cleanup r;;
      (* delete g_renderer; g_renderer = nullptr; *)
      ret None
  | None => ret g_renderer
  end.

Definition nativeOnSurfaceCreated (surface : Z) (g_renderer : renderer_ptr)
    : M renderer_ptr :=
  VRRenderer.LOGI "nativeOnSurfaceCreated" [];;
  match g_renderer with
  | Some r =>
      window <- api (ANativeWindow_fromSurface surface);;
      r1 <- VRRenderer.initializeEGL window r;;
      r2 <- VRRenderer.initialize (snd r1);;
      ret (Some (snd r2))
  | None => ret g_renderer
  end.

Definition nativeOnSurfaceChanged (width height : Z)
    (g_renderer : renderer_ptr) : M renderer_ptr :=
  VRRenderer.LOGI "nativeOnSurfaceChanged: %dx%d"
                  [ArgInt width; ArgInt height];;
  match g_renderer with
  | Some r =>
      r' <- VRRenderer.setViewport width height r;;
      ret (Some r')
  | None => ret g_renderer
  end.

Definition nativeOnDrawFrame (g_renderer : renderer_ptr) : M renderer_ptr :=
  match g_renderer with
  | Some r =>
      r' <- VRRenderer.renderFrame r;;
      ret (Some r')
  | None => ret g_renderer
  end.

(** The [jbyteArray] arguments are the arrays' contents; the element
    pointers JNI hands out view the same bytes. *)
Definition nativeUpdateTexture (leftData : list Z) (leftSize : Z)
    (rightData : list Z) (rightSize : Z) (g_renderer : renderer_ptr)
    : M renderer_ptr :=
  match g_renderer with
  | Some r =>
      api (GetByteArrayElements leftData);;
      let leftBytes := leftData in
      api (GetByteArrayElements rightData);;
      let rightBytes := rightData in
      VRRenderer.updateTexture leftBytes leftSize rightBytes rightSize r;;
      api (ReleaseByteArrayElements leftData JNI_ABORT);;
      api (ReleaseByteArrayElements rightData JNI_ABORT);;
      ret g_renderer
  | None => ret g_renderer
  end.

(** The entry points the host activity can invoke. *)
Inductive Native :=
| OnCreate
| OnDestroy
| OnSurfaceCreated (surface : Z)
| OnSurfaceChanged (width height : Z)
| OnDrawFrame
| UpdateTexture (leftData : list Z) (leftSize : Z)
                (rightData : list Z) (rightSize : Z).

Definition invoke (n : Native) : renderer_ptr -> M renderer_ptr :=
  match n with
  | OnCreate => nativeOnCreate
  | OnDestroy => nativeOnDestroy
  | OnSurfaceCreated surface => nativeOnSurfaceCreated surface
  | OnSurfaceChanged width height => nativeOnSurfaceChanged width height
  | OnDrawFrame => nativeOnDrawFrame
  | UpdateTexture l ls r rs => nativeUpdateTexture l ls r rs
  end.

(** A sequence of host callbacks, run in order. *)
Fixpoint invoke_all (ns : list Native) (g_renderer : renderer_ptr)
    : M renderer_ptr :=
  match ns with
  | [] => ret g_renderer
  | n :: rest => g' <- invoke n g_renderer;; invoke_all rest g'
  end.

Definition is_creation (n : Native) : bool :=
  match n with OnCreate => true | _ => false end.

End JNI.

(** ** Concrete machines used in the examples *)

Definition black : Color := mkColor 0 0 0 0.
Definition magenta : Color := mkColor 1 0 1 1.

Definition gl_init : GLState :=
  mkGL ∅ 0 GL_NO_ERROR black (mkRect 0 0 0 0) (Cleared black) None.

(** A driver on which every call succeeds: status calls answer 1 and
    object-creating calls hand out the name [length trace + 1].  Its
    GL_MAX_TEXTURE_SIZE is 4096, its window surfaces are 2048 x 1024, and
    no context name is handed out twice, so each eglMakeCurrent of a
    context is the first. *)
Definition env_ok : Env :=
  mkEnv
    (fun tr c =>
       match c with
       | glCreateShader _ | glCreateProgram | glGenVertexArrays _
       | glGenBuffers _ | glGenTextures _ | eglGetDisplay _
       | eglCreateWindowSurface _ _ _ | eglCreateContext _ _ _ _
       | ANativeWindow_fromSurface _ => Z.of_nat (length tr) + 1
       | glTexImage2D _ _ _ width height _ _ _ _ =>
           if decide (width <= 4096 /\ height <= 4096) then 1 else 0
       | _ => 1
       end)
    (fun _ _ => 1)
    (fun _ _ => EmptyString)
    (fun _ _ => Some (2048, 1024)).

(** A driver on which every call fails. *)
Definition env_fail : Env :=
  mkEnv (fun _ _ => 0) (fun _ _ => 0) (fun _ _ => EmptyString)
        (fun _ _ => None).

(** A driver on which every call succeeds except eglMakeCurrent. *)
Definition env_no_current : Env :=
  mkEnv
    (fun tr c =>
       match c with
       | eglMakeCurrent _ _ _ _ => 0
       | _ => env_ret env_ok tr c
       end)
    (env_out env_ok) (env_str env_ok) (fun _ _ => None).

Definition machine0 (e : Env) : Machine := mkMachine [] [] gl_init 0 e.

(** A renderer whose window, display, surface and context are all set: the
    one [nativeOnSurfaceCreated] builds on [env_ok]. *)
Definition live_renderer : VRRenderer.t :=
  VRRenderer.mk 2 7 8 1 19 26 27 36 42 0 2048 1024 O.

(** A full-size image of one colour. *)
Definition solid_image (rgb : list Z) : list Z :=
  mjoin (replicate (Z.to_nat (VRRenderer.texWidth * VRRenderer.texHeight)) rgb).

Definition image_bytes : Z := VRRenderer.texWidth * VRRenderer.texHeight * 3.

(** The host creates the renderer, attaches a surface, sizes it, delivers a
    stereo pair and asks for a frame. *)
Definition session (leftData rightData : list Z) : list JNI.Native :=
  [ JNI.OnCreate;
    JNI.OnSurfaceCreated 7;
    JNI.OnSurfaceChanged 2048 1024;
    JNI.UpdateTexture leftData image_bytes rightData image_bytes;
    JNI.OnDrawFrame ].

(** A computation that adds no glDrawArrays to the trace. *)
Definition adds_no_draw {A} (c : M A) : Prop :=
  forall m, filter is_draw (trace (snd (c m))) = filter is_draw (trace m).

(** What the pattern loop has written once the first [n] pixels, in row
    order, are done: pixel [j] sits in column [j mod w] of row [j / w]. *)
Definition pattern_written (w h n : Z) (p : list Z) : Prop :=
  length p = Z.to_nat (w * h * 3)
  /\ forall j, 0 <= j < n ->
       p !! Z.to_nat (3 * j) = Some (j mod w * 255 / w)
       /\ p !! Z.to_nat (3 * j + 1) = Some (j / w * 255 / h)
       /\ p !! Z.to_nat (3 * j + 2) = Some 128.

(** A computation that adds no call satisfying [p] to the trace and leaves
    the component [f] of the GL state as it was. *)
Definition untouched {X A} (p : Call -> bool) (f : GLState -> X) (c : M A)
    : Prop :=
  forall m, filter p (trace (snd (c m))) = filter p (trace m)
            /\ f (gl (snd (c m))) = f (gl m).

(** Calls that give back a handle the renderer keeps in a field. *)
Definition is_teardown (c : Call) : bool :=
  match c with
  | glDeleteVertexArrays _ | glDeleteBuffers _ | glDeleteTextures _
  | glDeleteProgram _
  | eglDestroyContext _ _ | eglDestroySurface _ _ | eglTerminate _
  | ANativeWindow_release _ => true
  | _ => false
  end.

(** Calls that ask the driver for a fresh object name. *)
Definition is_gen (c : Call) : bool :=
  match c with
  | glGenVertexArrays _ | glGenBuffers _ | glGenTextures _ => true
  | _ => false
  end.

(** Calls whose answer comes from the driver and which leave the modelled
    part of the GL context alone. *)
Definition is_plain (c : Call) : bool :=
  match c with
  | glBindTexture _ _ | glTexImage2D _ _ _ _ _ _ _ _ _ | glDeleteTextures _
  | glGetError | glClearColor _ _ _ _ | glClear _ | glViewport _ _ _ _
  | glDrawArrays _ _ _ | eglSwapBuffers _ _ | eglMakeCurrent _ _ _ _ => false
  | _ => true
  end.

(** A computation that appends exactly the calls [l] to the trace and
    writes nothing to the log. *)
Definition issues {A} (c : M A) (l : list Call) : Prop :=
  forall m, trace (snd (c m)) = trace m ++ l /\ logs (snd (c m)) = logs m.

(** The calls [cleanup] issues for a renderer, read off its guards. *)
Definition cleanup_gl_calls (r : VRRenderer.t) : list Call :=
  (if nonzero (VRRenderer.vao r)
   then [glDeleteVertexArrays (VRRenderer.vao r)] else [])
  ++ (if nonzero (VRRenderer.vbo r)
      then [glDeleteBuffers (VRRenderer.vbo r)] else [])
  ++ (if nonzero (VRRenderer.leftEyeTexture r)
      then [glDeleteTextures (VRRenderer.leftEyeTexture r)] else [])
  ++ (if nonzero (VRRenderer.rightEyeTexture r)
      then [glDeleteTextures (VRRenderer.rightEyeTexture r)] else [])
  ++ (if nonzero (VRRenderer.shaderProgram r)
      then [glDeleteProgram (VRRenderer.shaderProgram r)] else []).

Definition cleanup_egl_calls (r : VRRenderer.t) : list Call :=
  if decide (VRRenderer.display r <> EGL_NO_DISPLAY) then
    [eglMakeCurrent (VRRenderer.display r) EGL_NO_SURFACE EGL_NO_SURFACE
                    EGL_NO_CONTEXT]
    ++ (if bool_decide (VRRenderer.context r <> EGL_NO_CONTEXT)
        then [eglDestroyContext (VRRenderer.display r) (VRRenderer.context r)]
        else [])
    ++ (if bool_decide (VRRenderer.surface r <> EGL_NO_SURFACE)
        then [eglDestroySurface (VRRenderer.display r) (VRRenderer.surface r)]
        else [])
    ++ [eglTerminate (VRRenderer.display r)]
  else [].

Definition cleanup_window_calls (r : VRRenderer.t) : list Call :=
  if nonzero (VRRenderer.window r)
  then [ANativeWindow_release (VRRenderer.window r)] else [].

Definition is_gl_delete (c : Call) : bool :=
  match c with
  | glDeleteVertexArrays _ | glDeleteBuffers _ | glDeleteTextures _
  | glDeleteProgram _ => true
  | _ => false
  end.

Definition is_egl (c : Call) : bool :=
  match c with
  | eglMakeCurrent _ _ _ _ | eglDestroyContext _ _ | eglDestroySurface _ _
  | eglTerminate _ => true
  | _ => false
  end.

Definition is_window_release (c : Call) : bool :=
  match c with ANativeWindow_release _ => true | _ => false end.

(** A computation that only appends to the trace and to the log and keeps
    the driver. *)
Definition extends {A} (c : M A) : Prop :=
  forall m, exists calls lines,
    trace (snd (c m)) = trace m ++ calls
    /\ logs (snd (c m)) = logs m ++ lines
    /\ env (snd (c m)) = env m.

Definition is_bind_vertex_array (c : Call) : bool :=
  match c with glBindVertexArray _ => true | _ => false end.

(** The JNI calls that pin and unpin a byte array. *)
Definition is_jni_array (c : Call) : bool :=
  match c with
  | GetByteArrayElements _ | ReleaseByteArrayElements _ _ => true
  | _ => false
  end.

(** The two lines with which [renderFrame] refuses a frame. *)
Definition is_refusal (e : LogEntry) : bool :=
  (log_fmt e =? "renderFrame: No window!")%string
  || (log_fmt e =? "renderFrame: Invalid EGL state!")%string.

(** The calls every frame issues in a valid state. *)
Definition frame_calls (r : VRRenderer.t) : list Call :=
  [glClearColor 1 0 1 1;
   glClear (Z.lor GL_COLOR_BUFFER_BIT GL_DEPTH_BUFFER_BIT);
   glGetError;
   eglSwapBuffers (VRRenderer.display r) (VRRenderer.surface r)].

(** * Properties *)

(** ** Arithmetic helpers *)

Lemma wrap_in_range (z : Z) : Int.in_range z -> Int.wrap z = z.
Proof.
  unfold Int.in_range, Int.min_signed, Int.max_signed, Int.wrap.
  intros Hz. rewrite Z.mod_small; lia.
Qed.

Lemma mul3_in_range (w h : Z) :
  0 < w -> 0 < h -> w * h * 3 <= Int.max_signed ->
  Int.mul (Int.mul w h) 3 = w * h * 3.
Proof.
  unfold Int.max_signed. intros Hw Hh Hmax. unfold Int.mul.
  assert (0 < w * h) by lia.
  rewrite (wrap_in_range (w * h)).
  - apply wrap_in_range. unfold Int.in_range, Int.min_signed, Int.max_signed. lia.
  - unfold Int.in_range, Int.min_signed, Int.max_signed. lia.
Qed.

Lemma div2_in_range (w : Z) :
  0 <= w <= Int.max_signed -> Int.div w 2 = w / 2.
Proof.
  unfold Int.max_signed. intros Hw. unfold Int.div.
  rewrite Z.quot_div_nonneg by lia.
  apply wrap_in_range. unfold Int.in_range, Int.min_signed, Int.max_signed.
  assert (0 <= w / 2 <= w) by (split; [apply Z.div_pos; lia | apply Z.div_le_upper_bound; lia]).
  lia.
Qed.

(** ** std::vector *)

Lemma vector_resize_size (n : Z) (v : list Z) :
  0 <= n ->
  exists v', vector_resize n v = inr v' /\ vector_size v' = n.
Proof.
  intros Hn. unfold vector_resize.
  destruct (decide (n < 0)) as [Hneg | _]; [lia |].
  eexists. split; [reflexivity |].
  unfold vector_size.
  rewrite length_app, length_take, length_replicate. lia.
Qed.

(** ** The embedding on small inputs *)

Example patternOf_2x2 :
  VRRenderer.patternOf 2 2
  = [0; 0; 128;  127; 0; 128;  0; 127; 128;  127; 127; 128].
Proof. reflexivity. Qed.

Example decoder_2x2 :
  FrameDecoder.new 2 2 = inr (FrameDecoder.mk 2 2 (replicate 12 0)).
Proof. reflexivity. Qed.

Example decoder_negative_size :
  FrameDecoder.new 32768 32768 = inl length_error.
Proof. reflexivity. Qed.

Example projection_is_identity (s : StereoRenderer.t) (isLeftEye : bool) :
  StereoRenderer.getProjectionMatrix s isLeftEye
  = [1; 0; 0; 0;  0; 1; 0; 0;  0; 0; 1; 0;  0; 0; 0; 1].
Proof. reflexivity. Qed.

Example renderEye_calls :
  trace (exec (VRRenderer.renderEye 36 0 0 1024 1024 live_renderer)
              (machine0 env_ok))
  = [glViewport 0 0 1024 1024; glActiveTexture GL_TEXTURE0;
     glBindTexture GL_TEXTURE_2D 36; glGetUniformLocation 19 "uTexture";
     glUniform1i 1 0; glDrawArrays GL_TRIANGLES 0 3].
Proof. reflexivity. Qed.

Example cleanup_live_calls :
  trace (exec (VRRenderer.cleanup live_renderer) (machine0 env_ok))
  = [glDeleteVertexArrays 26; glDeleteBuffers 27; glDeleteTextures 36;
     glDeleteTextures 42; glDeleteProgram 19;
     eglMakeCurrent 2 EGL_NO_SURFACE EGL_NO_SURFACE EGL_NO_CONTEXT;
     eglDestroyContext 2 8; eglDestroySurface 2 7; eglTerminate 2;
     ANativeWindow_release 1].
Proof. reflexivity. Qed.

Example attach_builds_live_renderer :
  fst (JNI.invoke_all [JNI.OnCreate; JNI.OnSurfaceCreated 7;
                       JNI.OnSurfaceChanged 2048 1024] None (machine0 env_ok))
  = Some live_renderer.
Proof. reflexivity. Qed.

Example attach_fails_without_display :
  fst (JNI.invoke_all [JNI.OnCreate; JNI.OnSurfaceCreated 7] None
                      (machine0 env_fail))
  = Some VRRenderer.new.
Proof. reflexivity. Qed.

(** Writing the pattern keeps the vector's size. *)
Lemma for_range_invariant {S} (P : S -> Prop) (n : Z) (body : Z -> S -> S)
    (s : S) :
  (forall i x, P x -> P (body i x)) -> P s -> P (for_range n body s).
Proof.
  intros Hbody. unfold for_range. generalize (seqZ 0 n) as l. intros l.
  revert s. induction l as [| i l IH]; intros s Hs; simpl; [exact Hs |].
  apply IH. apply Hbody. exact Hs.
Qed.

Lemma patternOf_length (w h : Z) :
  length (VRRenderer.patternOf w h)
  = Z.to_nat (Int.mul (Int.mul w h) 3).
Proof.
  unfold VRRenderer.patternOf.
  apply (for_range_invariant
           (fun p => length p = Z.to_nat (Int.mul (Int.mul w h) 3))).
  - intros y p Hp.
    apply (for_range_invariant
             (fun p => length p = Z.to_nat (Int.mul (Int.mul w h) 3)));
      [| exact Hp].
    intros x q Hq. unfold VRRenderer.patternPixel.
    rewrite !length_insert. exact Hq.
  - apply length_replicate.
Qed.

Lemma testPattern_size :
  vector_size VRRenderer.testPattern = 1024 * 1024 * 3.
Proof.
  unfold vector_size, VRRenderer.testPattern. rewrite patternOf_length.
  rewrite Z2Nat.id by (vm_compute; discriminate).
  vm_compute. reflexivity.
Qed.

(** ** FrameDecoder: the scratch buffer *)

(** C10, as stated, fails: [width * height * 3] is computed in 32-bit [int],
    so for the positive dimensions 65536 x 65536 the product wraps to 0 and
    the buffer is resized to no bytes at all. *)
Lemma C10_wrapped_size_counterexample :
  0 < 65536 /\
  FrameDecoder.new 65536 65536 = inr (FrameDecoder.mk 65536 65536 []) /\
  ~ FrameDecoder.buffer_ok (FrameDecoder.mk 65536 65536 []).
Proof.
  split; [lia |]. split; [vm_compute; reflexivity |].
  unfold FrameDecoder.buffer_ok, vector_size. simpl. lia.
Qed.

(** C10, amended: for positive dimensions whose byte count
    [width * height * 3] fits a 32-bit [int], the constructor and every
    [setDimensions w h] complete and leave the scratch buffer with exactly
    [width * height * 3] bytes. *)
Theorem C10_buffer_size_invariant (w h : Z) (d0 : FrameDecoder.t) :
  0 < w -> 0 < h -> w * h * 3 <= Int.max_signed ->
  (exists d, FrameDecoder.new w h = inr d
             /\ FrameDecoder.width d = w /\ FrameDecoder.height d = h
             /\ FrameDecoder.buffer_ok d)
  /\
  (exists d, FrameDecoder.setDimensions w h d0 = inr d
             /\ FrameDecoder.width d = w /\ FrameDecoder.height d = h
             /\ FrameDecoder.buffer_ok d).
Proof.
  intros Hw Hh Hmax.
  pose proof (mul3_in_range w h Hw Hh Hmax) as Hmul.
  assert (Hnn : 0 <= w * h * 3) by nia.
  split.
  - destruct (vector_resize_size (w * h * 3) [] Hnn) as (buf & Hres & Hsz).
    exists (FrameDecoder.mk w h buf). unfold FrameDecoder.new.
    rewrite Hmul, Hres. repeat split; try reflexivity.
    unfold FrameDecoder.buffer_ok. simpl. exact Hsz.
  - destruct (vector_resize_size (w * h * 3) (FrameDecoder.rgbBuffer d0) Hnn)
      as (buf & Hres & Hsz).
    exists (FrameDecoder.mk w h buf). unfold FrameDecoder.setDimensions.
    simpl. rewrite Hmul, Hres. repeat split; try reflexivity.
    unfold FrameDecoder.buffer_ok. simpl. exact Hsz.
Qed.

Lemma C10_buffer_size_invariant_witness :
  (exists d, FrameDecoder.new 4 2 = inr d
             /\ FrameDecoder.width d = 4 /\ FrameDecoder.height d = 2
             /\ FrameDecoder.buffer_ok d)
  /\
  (exists d, FrameDecoder.setDimensions 4 2 (FrameDecoder.mk 1 1 [7; 8; 9])
             = inr d
             /\ FrameDecoder.width d = 4 /\ FrameDecoder.height d = 2
             /\ FrameDecoder.buffer_ok d).
Proof.
  apply (C10_buffer_size_invariant 4 2 (FrameDecoder.mk 1 1 [7; 8; 9]));
    unfold Int.max_signed; lia.
Defined.

(** ** StereoRenderer: the viewport split *)

Lemma run_api (c : Call) (m : Machine) :
  api c m = (answer c m,
             mkMachine (trace m ++ [c]) (logs m)
                       (driver_step (env m) (trace m) c (answer c m) (gl m))
                       (frameCount m) (env m)).
Proof. reflexivity. Qed.

(** C4, as stated, fails for an odd width: with W = 3 the right eye gets
    width 1, not 3 - 3/2 = 2, and column 2 of [0,3) is in neither
    rectangle. *)
Lemma C4_odd_width_counterexample :
  let s := StereoRenderer.mk 3 2 in
  let m := exec (StereoRenderer.setupRightEye s) (machine0 env_ok) in
  trace m = [glViewport 1 0 1 2]
  /\ gl_viewport (gl m) = StereoRenderer.rightRect s
  /\ rw (StereoRenderer.rightRect s) <> 3 - 3 / 2
  /\ 0 <= 2 < 3
  /\ ~ covers (StereoRenderer.leftRect s) 2
  /\ ~ covers (StereoRenderer.rightRect s) 2.
Proof.
  vm_compute. repeat split; try congruence; intros [? ?]; congruence.
Qed.

(** C4, amended: for a viewport of width W >= 0, [setupLeftEye] sets the
    rectangle starting at x = 0 of width W/2 and [setupRightEye] the one
    starting at x = W/2 of width W/2 as well (not W - W/2); the two are
    disjoint and together cover exactly the columns [0, 2*(W/2)), which is
    [0, W) when W is even; when W is odd the last column, W - 1, is in
    neither. *)
Theorem C4_viewport_split (W H : Z) (m : Machine) :
  0 <= W <= Int.max_signed -> 0 <= H ->
  let s := StereoRenderer.mk W H in
  let L := StereoRenderer.leftRect s in
  let R := StereoRenderer.rightRect s in
  trace (exec (StereoRenderer.setupLeftEye s) m)
    = trace m ++ [glViewport 0 0 (W / 2) H]
  /\ gl_viewport (gl (exec (StereoRenderer.setupLeftEye s) m)) = L
  /\ trace (exec (StereoRenderer.setupRightEye s) m)
    = trace m ++ [glViewport (W / 2) 0 (W / 2) H]
  /\ gl_viewport (gl (exec (StereoRenderer.setupRightEye s) m)) = R
  /\ L = mkRect 0 0 (W / 2) H
  /\ R = mkRect (W / 2) 0 (W / 2) H
  /\ (forall x, ~ (covers L x /\ covers R x))
  /\ (forall x, covers L x \/ covers R x <-> 0 <= x < 2 * (W / 2))
  /\ (W mod 2 = 0 -> forall x, covers L x \/ covers R x <-> 0 <= x < W)
  /\ (W mod 2 = 1 -> ~ covers L (W - 1) /\ ~ covers R (W - 1)).
Proof.
  intros HW HH s L R.
  pose proof (div2_in_range W HW) as Hdiv.
  assert (Hhalf : 0 <= W / 2) by (apply Z.div_pos; lia).
  assert (HL : L = mkRect 0 0 (W / 2) H)
    by (unfold L, StereoRenderer.leftRect; simpl; rewrite Hdiv; reflexivity).
  assert (HR : R = mkRect (W / 2) 0 (W / 2) H)
    by (unfold R, StereoRenderer.rightRect; simpl; rewrite Hdiv; reflexivity).
  unfold StereoRenderer.setupLeftEye, StereoRenderer.setupRightEye, exec, bind, ret.
  rewrite !run_api. simpl. rewrite Hdiv.
  destruct (decide (W / 2 < 0 \/ H < 0)) as [Hbad | _]; [lia |].
  rewrite HL, HR. unfold covers. simpl.
  pose proof (Z.div_mod W 2 ltac:(lia)) as Hdm.
  repeat split; try reflexivity; lia.
Qed.

Lemma C4_viewport_split_witness :
  trace (exec (StereoRenderer.setupRightEye (StereoRenderer.mk 2048 1024))
              (machine0 env_ok))
  = [glViewport 1024 0 1024 1024].
Proof.
  pose proof (C4_viewport_split 2048 1024 (machine0 env_ok)) as Hsplit.
  simpl in Hsplit.
  destruct Hsplit as (_ & _ & Hright & _); [unfold Int.max_signed; lia | lia |].
  exact Hright.
Defined.

(** ** FrameDecoder: decoding *)

Lemma run_log_print (p : Priority) (tag fmt : string) (args : list LogArg)
    (m : Machine) :
  log_print p tag fmt args m
  = (tt, mkMachine (trace m) (logs m ++ [mkLog p tag fmt args]) (gl m)
                   (frameCount m) (env m)).
Proof. reflexivity. Qed.

(** Whatever it is given, [decodeJPEG] writes one info line, reports success
    and hands the output buffer back as it received it. *)
Lemma run_decodeJPEG (d : FrameDecoder.t) (jpegData : list Z) (jpegSize : Z)
    (outRGB : list Z) (m : Machine) :
  FrameDecoder.decodeJPEG d jpegData jpegSize outRGB m
  = ((true, outRGB),
     mkMachine (trace m)
               (logs m ++ [mkLog ANDROID_LOG_INFO FrameDecoder.LOG_TAG
                                 "Decoding JPEG: %d bytes" [ArgInt jpegSize]])
               (gl m) (frameCount m) (env m)).
Proof. reflexivity. Qed.

(** C3: the specification asks for a DecodeError on empty or truncated
    input.  The
    body of [decodeJPEG] is a placeholder that returns [true] on every
    input: on the empty input, and on every prefix of any input, it reports
    success, logs no error, and leaves the output buffer untouched. *)
Theorem C3_decode_accepts_empty_and_truncated (d : FrameDecoder.t)
    (jpegData outRGB : list Z) (n : nat) (m : Machine) :
  eval (FrameDecoder.decodeJPEG d [] 0 outRGB) m = (true, outRGB)
  /\ eval (FrameDecoder.decodeJPEG d (take n jpegData)
                                   (Z.of_nat (length (take n jpegData))) outRGB) m
     = (true, outRGB)
  /\ filter (fun e => is_error e = true)
            (logs (exec (FrameDecoder.decodeJPEG d [] 0 outRGB) m))
     = filter (fun e => is_error e = true) (logs m).
Proof.
  unfold eval, exec. rewrite !run_decodeJPEG. simpl.
  repeat split. rewrite filter_app. apply app_nil_r.
Qed.

(** C5: the specification asks for a decoded image of width x height x 3
    bytes.  The
    body of [decodeJPEG] never writes to [outRGB]: for every input it
    reports success, issues no call, and the buffer afterwards is the buffer
    before, so a zero-filled buffer stays zero-filled and two different
    inputs give the same output. *)
Theorem C5_decode_writes_nothing (d : FrameDecoder.t)
    (jpegData jpegData' outRGB : list Z) (jpegSize jpegSize' : Z)
    (m : Machine) :
  eval (FrameDecoder.decodeJPEG d jpegData jpegSize outRGB) m = (true, outRGB)
  /\ trace (exec (FrameDecoder.decodeJPEG d jpegData jpegSize outRGB) m)
     = trace m
  /\ eval (FrameDecoder.decodeJPEG d jpegData jpegSize outRGB) m
     = eval (FrameDecoder.decodeJPEG d jpegData' jpegSize' outRGB) m
  /\ snd (eval (FrameDecoder.decodeJPEG d jpegData jpegSize
                  (replicate (Z.to_nat (FrameDecoder.width d
                                         * FrameDecoder.height d * 3)) 0)) m)
     = replicate (Z.to_nat (FrameDecoder.width d * FrameDecoder.height d * 3)) 0.
Proof.
  unfold eval, exec. rewrite !run_decodeJPEG. simpl. repeat split.
Qed.

(** ** VRRenderer: the guards of renderFrame *)

(** While the window is null or one of display, surface and context is
    still its EGL_NO_* sentinel, [renderFrame] writes one error line and
    returns; it issues no API call (so neither a draw nor a buffer swap),
    and leaves the renderer, the GL state and the frame counter as they
    were. *)
Lemma renderFrame_guarded (r : VRRenderer.t) (m : Machine) :
  VRRenderer.no_window r \/ VRRenderer.invalid_egl r ->
  exists msg,
    VRRenderer.renderFrame r m
    = (r, mkMachine (trace m)
                    (logs m ++ [mkLog ANDROID_LOG_ERROR VRRenderer.LOG_TAG
                                      msg []])
                    (gl m) (frameCount m) (env m)).
Proof.
  intros Hguard. unfold VRRenderer.renderFrame.
  destruct (decide (VRRenderer.no_window r)) as [Hw | Hw].
  - eexists. reflexivity.
  - destruct (decide (VRRenderer.invalid_egl r)) as [He | He].
    + eexists. reflexivity.
    + destruct Hguard; contradiction.
Qed.

(** ** JNI: the null checks *)

(** C9: with [g_renderer] null, every entry point other than
    [nativeOnCreate] leaves the pointer null, issues no API call, leaves the
    GL state and the frame counter alone, and writes at most info lines to
    the log. *)
Theorem C9_null_renderer_noop (n : JNI.Native) (m : Machine) :
  JNI.is_creation n = false ->
  exists lines,
    Forall (fun e => is_error e = false) lines
    /\ JNI.invoke n None m
       = (None, mkMachine (trace m) (logs m ++ lines) (gl m) (frameCount m)
                          (env m)).
Proof.
  intros Hn. destruct n; simpl in Hn; try discriminate; simpl.
  - eexists. split; [| reflexivity]. repeat constructor.
  - eexists. split; [| reflexivity]. repeat constructor.
  - eexists. split; [| reflexivity]. repeat constructor.
  - exists []. split; [constructor |]. rewrite app_nil_r. destruct m; reflexivity.
  - exists []. split; [constructor |]. rewrite app_nil_r. destruct m; reflexivity.
Qed.

Lemma C9_null_renderer_noop_witness :
  exists lines,
    Forall (fun e => is_error e = false) lines
    /\ JNI.invoke (JNI.UpdateTexture [255; 216] 2 [255; 217] 2) None
                  (machine0 env_ok)
       = (None, mkMachine [] ([] ++ lines) gl_init 0 env_ok).
Proof.
  apply (C9_null_renderer_noop (JNI.UpdateTexture [255; 216] 2 [255; 217] 2)
                               (machine0 env_ok)).
  reflexivity.
Defined.

(** ** JNI: teardown *)

(** C8: whatever the state before, after one [nativeOnDestroy] the renderer
    pointer is null, and a second [nativeOnDestroy] right after it issues no
    API call (nothing is released again), logs no error (only its own info
    line), and leaves the pointer, the GL state and the frame counter
    unchanged.  On a renderer that was never attached the first call
    releases nothing either. *)
Theorem C8_destroy_twice (g_renderer : JNI.renderer_ptr) (m : Machine) :
  let first := JNI.nativeOnDestroy g_renderer m in
  let second := JNI.nativeOnDestroy (fst first) (snd first) in
  fst first = None
  /\ second
     = (None,
        mkMachine (trace (snd first))
                  (logs (snd first)
                   ++ [mkLog ANDROID_LOG_INFO VRRenderer.LOG_TAG
                             "nativeOnDestroy" []])
                  (gl (snd first)) (frameCount (snd first)) (env (snd first)))
  /\ filter is_release (trace (snd second))
     = filter is_release (trace (snd first))
  /\ trace (snd (JNI.nativeOnDestroy (Some VRRenderer.new) m)) = trace m.
Proof.
  intros first second.
  assert (Hfirst : fst first = None).
  { unfold first, JNI.nativeOnDestroy, VRRenderer.LOGI, bind.
    rewrite run_log_print. destruct g_renderer as [r |]; [| reflexivity].
    destruct (VRRenderer.cleanup r _) as [[] m1]. reflexivity. }
  assert (Hsecond : second
     = (None,
        mkMachine (trace (snd first))
                  (logs (snd first)
                   ++ [mkLog ANDROID_LOG_INFO VRRenderer.LOG_TAG
                             "nativeOnDestroy" []])
                  (gl (snd first)) (frameCount (snd first)) (env (snd first)))).
  { unfold second. rewrite Hfirst. reflexivity. }
  split; [exact Hfirst |]. split; [exact Hsecond |].
  split; [rewrite Hsecond; reflexivity | reflexivity].
Qed.

(** ** VRRenderer: what a frame does *)

Ltac case_branches :=
  repeat match goal with
         | |- context [if ?b then _ else _] => destruct b; cbn
         | |- context [match ?b with left _ => _ | right _ => _ end] =>
             destruct b; cbn
         end.

Ltac run_monad :=
  unfold exec, eval, bind, when, VRRenderer.call_if, VRRenderer.LOGE,
    VRRenderer.LOGI, incr_frameCount, log_print, api, ret;
  cbn [trace logs gl frameCount env fst snd].

Lemma clear_mask_has_color_bit :
  Z.testbit (Z.lor GL_COLOR_BUFFER_BIT GL_DEPTH_BUFFER_BIT) 14 = true.
Proof. reflexivity. Qed.

(** C2: the specification lists clear, then per eye viewport + bind + draw,
    then swap.  In a valid state [renderFrame] issues glClearColor, glClear of
    the colour and depth bits, glGetError and eglSwapBuffers (and
    eglGetError when the swap fails) and nothing else: no glViewport, no
    glBindTexture, no glDrawArrays.  The viewport and the texture binding
    are as before, and the back buffer is the clear colour, magenta. *)
Theorem C2_renderFrame_only_clears_and_swaps (r : VRRenderer.t) (m : Machine) :
  ~ VRRenderer.no_window r -> ~ VRRenderer.invalid_egl r ->
  let m' := exec (VRRenderer.renderFrame r) m in
  exists tail,
    trace m'
    = trace m ++ [glClearColor 1 0 1 1;
                  glClear (Z.lor GL_COLOR_BUFFER_BIT GL_DEPTH_BUFFER_BIT);
                  glGetError;
                  eglSwapBuffers (VRRenderer.display r) (VRRenderer.surface r)]
              ++ tail
    /\ (tail = [] \/ tail = [eglGetError])
    /\ gl_viewport (gl m') = gl_viewport (gl m)
    /\ gl_bound (gl m') = gl_bound (gl m)
    /\ gl_textures (gl m') = gl_textures (gl m)
    /\ gl_back (gl m') = Cleared magenta.
Proof.
  intros Hw He. unfold VRRenderer.renderFrame.
  rewrite decide_False by assumption. rewrite decide_False by assumption.
  run_monad. cbn [driver_step gl_step]. rewrite clear_mask_has_color_bit.
  case_branches.
  all: rewrite <- ?app_assoc; cbn [app].
  all: eexists; split; [f_equal |]; eauto 10.
Qed.

Lemma C2_renderFrame_only_clears_and_swaps_witness :
  exists tail,
    trace (exec (VRRenderer.renderFrame live_renderer) (machine0 env_ok))
    = [] ++ [glClearColor 1 0 1 1;
             glClear (Z.lor GL_COLOR_BUFFER_BIT GL_DEPTH_BUFFER_BIT);
             glGetError;
             eglSwapBuffers 2 7]
         ++ tail
    /\ (tail = [] \/ tail = [eglGetError])
    /\ gl_viewport (gl (exec (VRRenderer.renderFrame live_renderer)
                             (machine0 env_ok)))
       = mkRect 0 0 0 0
    /\ gl_bound (gl (exec (VRRenderer.renderFrame live_renderer)
                          (machine0 env_ok)))
       = 0
    /\ gl_textures (gl (exec (VRRenderer.renderFrame live_renderer)
                             (machine0 env_ok)))
       = ∅
    /\ gl_back (gl (exec (VRRenderer.renderFrame live_renderer)
                         (machine0 env_ok)))
       = Cleared magenta.
Proof.
  apply (C2_renderFrame_only_clears_and_swaps live_renderer (machine0 env_ok)).
  - unfold VRRenderer.no_window. simpl. discriminate.
  - unfold VRRenderer.invalid_egl. simpl. intros [H | [H | H]]; discriminate.
Defined.

(** ** FrameDecoder: texture upload *)




(** ** No entry point draws *)

(** [renderEye] is the only method that issues glDrawArrays, and nothing
    calls it: whatever the driver answers, no sequence of host callbacks
    adds a draw call to the trace. *)

Lemma adds_no_draw_ret {A} (a : A) : adds_no_draw (ret a).
Proof. intros m. reflexivity. Qed.

Lemma adds_no_draw_bind {A B} (c : M A) (k : A -> M B) :
  adds_no_draw c -> (forall a, adds_no_draw (k a)) -> adds_no_draw (bind c k).
Proof.
  intros Hc Hk m. unfold bind. specialize (Hc m).
  destruct (c m) as [a m1]. rewrite Hk. exact Hc.
Qed.

Lemma adds_no_draw_api (c : Call) : is_draw c = false -> adds_no_draw (api c).
Proof.
  intros Hc m. unfold api. cbn [snd trace]. rewrite filter_app. cbn.
  rewrite Hc. cbn. apply app_nil_r.
Qed.

Lemma adds_no_draw_api_out (c : Call) :
  is_draw c = false -> adds_no_draw (api_out c).
Proof.
  intros Hc m. unfold api_out. cbn [snd trace]. rewrite filter_app. cbn.
  rewrite Hc. cbn. apply app_nil_r.
Qed.

Lemma adds_no_draw_api_str (c : Call) :
  is_draw c = false -> adds_no_draw (api_str c).
Proof.
  intros Hc m. unfold api_str. cbn [snd trace]. rewrite filter_app. cbn.
  rewrite Hc. cbn. apply app_nil_r.
Qed.

Lemma adds_no_draw_log (p : Priority) (tag fmt : string) (args : list LogArg) :
  adds_no_draw (log_print p tag fmt args).
Proof. intros m. reflexivity. Qed.

Lemma adds_no_draw_incr : adds_no_draw incr_frameCount.
Proof. intros m. reflexivity. Qed.

Ltac no_draw_step :=
  match goal with
  | |- adds_no_draw (ret _) => apply adds_no_draw_ret
  | |- adds_no_draw (log_print _ _ _ _) => apply adds_no_draw_log
  | |- adds_no_draw incr_frameCount => apply adds_no_draw_incr
  | |- adds_no_draw (api _) => apply adds_no_draw_api; reflexivity
  | |- adds_no_draw (api_out _) => apply adds_no_draw_api_out; reflexivity
  | |- adds_no_draw (api_str _) => apply adds_no_draw_api_str; reflexivity
  | |- adds_no_draw (bind _ _) => apply adds_no_draw_bind; [| intros ?]
  | |- adds_no_draw (if ?b then _ else _) => destruct b
  | |- adds_no_draw (match ?b with left _ => _ | right _ => _ end) =>
      destruct b
  end.

Ltac no_draw := repeat no_draw_step.

Lemma initializeEGL_no_draw (w : Z) (r : VRRenderer.t) :
  adds_no_draw (VRRenderer.initializeEGL w r).
Proof. unfold VRRenderer.initializeEGL, VRRenderer.LOGE, VRRenderer.LOGI. no_draw. Qed.

Lemma initialize_no_draw (r : VRRenderer.t) :
  adds_no_draw (VRRenderer.initialize r).
Proof.
  unfold VRRenderer.initialize, VRRenderer.createShaderProgram, VRRenderer.compileShader, VRRenderer.createTexture, VRRenderer.LOGE, VRRenderer.LOGI. no_draw. Qed.

Lemma renderFrame_no_draw (r : VRRenderer.t) :
  adds_no_draw (VRRenderer.renderFrame r).
Proof. unfold VRRenderer.renderFrame, when, VRRenderer.LOGE, VRRenderer.LOGI. no_draw. Qed.

Lemma updateTexture_no_draw (l : list Z) (ls : Z) (r : list Z) (rs : Z)
    (x : VRRenderer.t) :
  adds_no_draw (VRRenderer.updateTexture l ls r rs x).
Proof. unfold VRRenderer.updateTexture, VRRenderer.LOGE, VRRenderer.LOGI. no_draw. Qed.

Lemma cleanup_no_draw (r : VRRenderer.t) :
  adds_no_draw (VRRenderer.cleanup r).
Proof. unfold VRRenderer.cleanup, VRRenderer.call_if, when. no_draw. Qed.

Lemma invoke_no_draw (n : JNI.Native) (g : JNI.renderer_ptr) :
  adds_no_draw (JNI.invoke n g).
Proof.
  destruct n, g as [r |]; cbn [JNI.invoke];
    unfold JNI.nativeOnCreate, JNI.nativeOnDestroy, JNI.nativeOnSurfaceCreated,
      JNI.nativeOnSurfaceChanged, JNI.nativeOnDrawFrame, JNI.nativeUpdateTexture,
      VRRenderer.setViewport, VRRenderer.LOGI;
    repeat match goal with
           | |- adds_no_draw (VRRenderer.initializeEGL _ _) =>
               apply initializeEGL_no_draw
           | |- adds_no_draw (VRRenderer.initialize _) =>
               apply initialize_no_draw
           | |- adds_no_draw (VRRenderer.renderFrame _) =>
               apply renderFrame_no_draw
           | |- adds_no_draw (VRRenderer.updateTexture _ _ _ _ _) =>
               apply updateTexture_no_draw
           | |- adds_no_draw (VRRenderer.cleanup _) => apply cleanup_no_draw
           | _ => no_draw_step
           end.
Qed.

Lemma no_callback_sequence_draws (ns : list JNI.Native)
    (g : JNI.renderer_ptr) (m : Machine) :
  filter is_draw (trace (snd (JNI.invoke_all ns g m))) = filter is_draw (trace m).
Proof.
  revert g m. induction ns as [| n ns IH]; intros g m; cbn [JNI.invoke_all].
  - reflexivity.
  - unfold bind. pose proof (invoke_no_draw n g m) as Hn.
    destruct (JNI.invoke n g m) as [g1 m1]. rewrite IH. exact Hn.
Qed.

(** ** VRRenderer: from upload to display *)


Lemma exec_bind {A B} (c : M A) (k : A -> M B) (m : Machine) :
  exec (bind c k) m = exec (k (eval c m)) (exec c m).
Proof. unfold bind, eval, exec. destruct (c m). reflexivity. Qed.

Lemma gl_exec_api (c : Call) (m : Machine) :
  gl (exec (api c) m) = driver_step (env m) (trace m) c (answer c m) (gl m).
Proof. reflexivity. Qed.

Lemma gl_exec_log (p : Priority) (tag fmt : string) (args : list LogArg)
    (m : Machine) :
  gl (exec (log_print p tag fmt args) m) = gl m.
Proof. reflexivity. Qed.

(** An image within the size every implementation supports is stored. *)
Lemma texImage_stored (target level internalformat width height border format
    type : Z) (pixels : list Z) (r : Z) (g : GLState) :
  0 <= width <= min_max_texture_size ->
  0 <= height <= min_max_texture_size ->
  gl_step (glTexImage2D target level internalformat width height border format
                        type pixels) r g
  = set_textures
      (<[gl_bound g := mkTexImage width height pixels]> (gl_textures g)) g.
Proof.
  intros Hw Hh. cbn [gl_step].
  rewrite decide_False by lia. rewrite decide_False by lia. reflexivity.
Qed.

(** [updateTexture] never reads its arguments' bytes: both eye textures
    receive the test pattern, and the GL state afterwards is the same
    whatever was passed. *)
Lemma updateTexture_stores_pattern (leftData rightData : list Z)
    (leftSize rightSize : Z) (r : VRRenderer.t) (m : Machine) :
  let pattern :=
    mkTexImage VRRenderer.texWidth VRRenderer.texHeight VRRenderer.testPattern in
  gl (exec (VRRenderer.updateTexture leftData leftSize rightData rightSize r) m)
  = set_bound 0
      (set_textures
         (<[VRRenderer.rightEyeTexture r := pattern]>
            (<[VRRenderer.leftEyeTexture r := pattern]> (gl_textures (gl m))))
         (gl m)).
Proof.
  unfold VRRenderer.updateTexture, VRRenderer.LOGI.
  rewrite !exec_bind, gl_exec_log, !gl_exec_api, gl_exec_log.
  cbn [driver_step].
  rewrite !texImage_stored by (vm_compute; split; discriminate).
  reflexivity.
Qed.

(** C1: the specification asks that after uploading A to LEFT and B to
    RIGHT the frame shows A on the left half and B on the right half.  The
    code never gets there.  Whatever the machine and the driver,
    [updateTexture] stores the built-in test pattern in both eye textures
    and not the bytes it was given, and no sequence of host callbacks issues
    a draw call.  On a driver where every call succeeds, deliver any pair of
    images and ask for a frame: both eye textures hold the test pattern, the
    trace has no draw call, and the frame put on display is the uniform
    clear colour, magenta; delivering solid red and solid blue, or the two
    swapped, ends in the same GL state. *)
Theorem C1_upload_is_ignored_and_no_eye_is_drawn (leftData rightData : list Z)
    (leftSize rightSize : Z) (r : VRRenderer.t) (ns : list JNI.Native)
    (g : JNI.renderer_ptr) (m : Machine) :
  let pattern :=
    mkTexImage VRRenderer.texWidth VRRenderer.texHeight VRRenderer.testPattern in
  let run := JNI.invoke_all (session leftData rightData) None
                            (machine0 env_ok) in
  gl_textures
    (gl (exec (VRRenderer.updateTexture leftData leftSize rightData rightSize r)
              m))
  = <[VRRenderer.rightEyeTexture r := pattern]>
      (<[VRRenderer.leftEyeTexture r := pattern]> (gl_textures (gl m)))
  /\ filter is_draw (trace (snd (JNI.invoke_all ns g m)))
     = filter is_draw (trace m)
  /\ fst run = Some (VRRenderer.tick live_renderer)
  /\ gl_textures (gl (snd run)) !! VRRenderer.leftEyeTexture live_renderer
     = Some pattern
  /\ gl_textures (gl (snd run)) !! VRRenderer.rightEyeTexture live_renderer
     = Some pattern
  /\ filter is_draw (trace (snd run)) = []
  /\ gl_front (gl (snd run)) = Some (Cleared magenta)
  /\ gl (snd (JNI.invoke_all
                (session (solid_image [255; 0; 0]) (solid_image [0; 0; 255]))
                None (machine0 env_ok)))
     = gl (snd (JNI.invoke_all
                  (session (solid_image [0; 0; 255]) (solid_image [255; 0; 0]))
                  None (machine0 env_ok))).
Proof.
  intros pattern run. unfold run, pattern.
  split; [rewrite updateTexture_stores_pattern; reflexivity |].
  split; [apply no_callback_sequence_draws |].
  split; [lazy; reflexivity |].
  split; [lazy -[VRRenderer.testPattern]; reflexivity |].
  split; [lazy -[VRRenderer.testPattern]; reflexivity |].
  split; [lazy; reflexivity |].
  split; [lazy; reflexivity |].
  lazy -[VRRenderer.testPattern solid_image]. reflexivity.
Qed.


(** * Further properties *)

(** ** Loops *)

Lemma for_range_succ {S} (n : Z) (body : Z -> S -> S) (s : S) :
  0 <= n -> for_range (n + 1) body s = body n (for_range n body s).
Proof.
  intros Hn. unfold for_range.
  rewrite seqZ_app by lia. rewrite foldl_app.
  rewrite (seqZ_cons (0 + n) 1) by lia.
  rewrite (seqZ_nil (Z.succ (0 + n)) (Z.pred 1)) by lia.
  reflexivity.
Qed.

Lemma for_range_ind {S} (I : Z -> S -> Prop) (n : Z) (body : Z -> S -> S)
    (s : S) :
  0 <= n -> I 0 s ->
  (forall i x, 0 <= i < n -> I i x -> I (i + 1) (body i x)) ->
  I n (for_range n body s).
Proof.
  intros Hn H0 Hstep.
  assert (Hall : forall k, 0 <= k -> k <= n -> I k (for_range k body s)).
  { intros k Hk. pattern k. apply natlike_ind; [| | exact Hk].
    - intros _. exact H0.
    - intros x Hx IH Hle. unfold Z.succ. rewrite for_range_succ by lia.
      apply Hstep; [lia |]. apply IH. lia. }
  apply Hall; lia.
Qed.

(** ** The test pattern *)

Section Pattern.

Variables w h : Z.
Hypothesis Hw : 0 < w.
Hypothesis Hh : 0 < h.
Hypothesis Hsize : w * h * 3 <= Int.max_signed.
Hypothesis Hred : w * 255 <= Int.max_signed.
Hypothesis Hgreen : h * 255 <= Int.max_signed.

Lemma gradient_value (a n : Z) :
  0 < n -> n * 255 <= Int.max_signed -> 0 <= a < n ->
  to_uint8 (Int.div (Int.mul a 255) n) = a * 255 / n.
Proof.
  unfold Int.max_signed. intros Hn Hmax Ha.
  assert (Hq : 0 <= a * 255 / n < 255).
  { split; [apply Z.div_pos; lia |]. apply Z.div_lt_upper_bound; nia. }
  unfold Int.mul. rewrite (wrap_in_range (a * 255))
    by (unfold Int.in_range, Int.min_signed, Int.max_signed; nia).
  unfold Int.div. rewrite Z.quot_div_nonneg by lia.
  rewrite wrap_in_range
    by (unfold Int.in_range, Int.min_signed, Int.max_signed; lia).
  unfold to_uint8. apply Z.mod_small. lia.
Qed.

Lemma pixel_index (x y : Z) :
  0 <= x < w -> 0 <= y < h ->
  Int.mul (Int.add (Int.mul y w) x) 3 = 3 * (y * w + x)
  /\ 0 <= y * w + x < w * h.
Proof.
  unfold Int.max_signed in *. intros Hx Hy.
  assert (Hj : 0 <= y * w + x < w * h) by nia.
  split; [| exact Hj].
  unfold Int.mul, Int.add.
  rewrite (wrap_in_range (y * w))
    by (unfold Int.in_range, Int.min_signed, Int.max_signed; nia).
  rewrite (wrap_in_range (y * w + x))
    by (unfold Int.in_range, Int.min_signed, Int.max_signed; nia).
  rewrite wrap_in_range
    by (unfold Int.in_range, Int.min_signed, Int.max_signed; nia).
  lia.
Qed.

Lemma patternPixel_step (x y : Z) (p : list Z) :
  0 <= x < w -> 0 <= y < h ->
  pattern_written w h (y * w + x) p ->
  pattern_written w h (y * w + x + 1) (VRRenderer.patternPixel w h y x p).
Proof.
  intros Hx Hy [Hlen Hdone].
  destruct (pixel_index x y Hx Hy) as [Hidx Hj].
  unfold VRRenderer.patternPixel. rewrite Hidx.
  rewrite (gradient_value x w Hw Hred Hx), (gradient_value y h Hh Hgreen Hy).
  set (j := y * w + x) in *.
  assert (Hbound : (Z.to_nat (3 * j + 2) < length p)%nat) by (rewrite Hlen; lia).
  split; [rewrite !length_insert; exact Hlen |].
  intros j' Hj'.
  destruct (decide (j' = j)) as [-> | Hne].
  - assert (Hmod : j mod w = x)
      by (unfold j; rewrite Z.add_comm, Z.mod_add by lia; apply Z.mod_small; lia).
    assert (Hdiv : j / w = y)
      by (unfold j; rewrite Z.add_comm, Z.div_add by lia;
          rewrite Z.div_small by lia; lia).
    rewrite Hmod, Hdiv. replace (3 * j + 0) with (3 * j) by lia.
    split; [| split].
    + rewrite list_lookup_insert_ne by lia.
      rewrite list_lookup_insert_ne by lia.
      apply list_lookup_insert_eq. lia.
    + rewrite list_lookup_insert_ne by lia.
      apply list_lookup_insert_eq. rewrite length_insert. lia.
    + apply list_lookup_insert_eq. rewrite !length_insert. lia.
  - assert (Hlt : 0 <= j' < j) by lia.
    destruct (Hdone j' Hlt) as (Hr & Hg & Hb).
    rewrite !list_lookup_insert_ne by lia. auto.
Qed.

Lemma pattern_row (y : Z) (p : list Z) :
  0 <= y < h ->
  pattern_written w h (y * w) p ->
  pattern_written w h ((y + 1) * w)
    (for_range w (VRRenderer.patternPixel w h y) p).
Proof.
  intros Hy Hp.
  replace ((y + 1) * w) with (y * w + w) by lia.
  apply (for_range_ind (fun x q => pattern_written w h (y * w + x) q)).
  - lia.
  - rewrite Z.add_0_r. exact Hp.
  - intros x q Hx Hq. rewrite Z.add_assoc. apply patternPixel_step; assumption.
Qed.

Lemma patternOf_written :
  pattern_written w h (w * h) (VRRenderer.patternOf w h).
Proof.
  unfold VRRenderer.patternOf.
  replace (w * h) with (h * w) at 1 by lia.
  apply (for_range_ind (fun y q => pattern_written w h (y * w) q)).
  - lia.
  - rewrite (mul3_in_range w h Hw Hh Hsize). split.
    + apply length_replicate.
    + intros j Hj. lia.
  - intros y q Hy Hq. apply pattern_row; assumption.
Qed.

End Pattern.

(** ** What the callbacks leave alone *)

Section Untouched.

Context {X : Type} (p : Call -> bool) (f : GLState -> X).
Hypothesis Hgl :
  forall e t c r g, p c = false -> f (driver_step e t c r g) = f g.

Lemma untouched_ret {A} (a : A) : untouched p f (ret a).
Proof. intros m. split; reflexivity. Qed.

Lemma untouched_bind {A B} (c : M A) (k : A -> M B) :
  untouched p f c -> (forall a, untouched p f (k a)) ->
  untouched p f (bind c k).
Proof.
  intros Hc Hk m. unfold bind. destruct (Hc m) as [Ht Hf].
  destruct (c m) as [a m1]. destruct (Hk a m1) as [Ht' Hf'].
  cbn [snd] in *. split; congruence.
Qed.

Lemma untouched_api (c : Call) : p c = false -> untouched p f (api c).
Proof.
  intros Hc m. unfold api. cbn [snd trace gl]. split.
  - rewrite filter_app. cbn. rewrite Hc. cbn. apply app_nil_r.
  - apply Hgl. exact Hc.
Qed.

Lemma untouched_api_out (c : Call) : p c = false -> untouched p f (api_out c).
Proof.
  intros Hc m. unfold api_out. cbn [snd trace gl]. split.
  - rewrite filter_app. cbn. rewrite Hc. cbn. apply app_nil_r.
  - apply Hgl. exact Hc.
Qed.

Lemma untouched_api_str (c : Call) : p c = false -> untouched p f (api_str c).
Proof.
  intros Hc m. unfold api_str. cbn [snd trace gl]. split.
  - rewrite filter_app. cbn. rewrite Hc. cbn. apply app_nil_r.
  - apply Hgl. exact Hc.
Qed.

Lemma untouched_log (q : Priority) (tag fmt : string) (args : list LogArg) :
  untouched p f (log_print q tag fmt args).
Proof. intros m. split; reflexivity. Qed.

Lemma untouched_incr : untouched p f incr_frameCount.
Proof. intros m. split; reflexivity. Qed.

Lemma untouched_invoke_all (ns : list JNI.Native) :
  (forall n g, In n ns -> untouched p f (JNI.invoke n g)) ->
  forall g, untouched p f (JNI.invoke_all ns g).
Proof.
  induction ns as [| n ns IH]; intros Hns g; cbn [JNI.invoke_all].
  - apply untouched_ret.
  - apply untouched_bind.
    + apply Hns. left. reflexivity.
    + intros g'. apply IH. intros n' g'' Hin. apply Hns. right. exact Hin.
Qed.

End Untouched.

Ltac untouched_step H :=
  match goal with
  | |- untouched _ _ (ret _) => apply untouched_ret
  | |- untouched _ _ (log_print _ _ _ _) => apply untouched_log
  | |- untouched _ _ incr_frameCount => apply untouched_incr
  | |- untouched _ _ (api _) => apply (untouched_api _ _ H); reflexivity
  | |- untouched _ _ (api_out _) => apply (untouched_api_out _ _ H); reflexivity
  | |- untouched _ _ (api_str _) => apply (untouched_api_str _ _ H); reflexivity
  | |- untouched _ _ (bind _ _) => apply untouched_bind; [| intros ?]
  | |- untouched _ _ (if ?b then _ else _) => destruct b
  | |- untouched _ _ (match ?b with left _ => _ | right _ => _ end) =>
      destruct b
  end.

Ltac unfold_methods :=
  unfold JNI.nativeOnCreate, JNI.nativeOnDestroy, JNI.nativeOnSurfaceCreated,
    JNI.nativeOnSurfaceChanged, JNI.nativeOnDrawFrame, JNI.nativeUpdateTexture,
    VRRenderer.initializeEGL, VRRenderer.initialize,
    VRRenderer.createShaderProgram, VRRenderer.compileShader,
    VRRenderer.createTexture, VRRenderer.setViewport, VRRenderer.renderFrame,
    VRRenderer.updateTexture, VRRenderer.cleanup, VRRenderer.call_if, when,
    VRRenderer.LOGE, VRRenderer.LOGI.

Lemma gl_step_keeps_unit (p : Call -> bool) (e : Env) (t : list Call)
    (c : Call) (r : Z) (g : GLState) :
  p c = false -> (fun _ : GLState => tt) (driver_step e t c r g) = tt.
Proof. reflexivity. Qed.

Lemma invoke_no_viewport (n : JNI.Native) (g : JNI.renderer_ptr) :
  untouched is_viewport (fun _ : GLState => tt) (JNI.invoke n g).
Proof.
  destruct n, g as [r |]; cbn [JNI.invoke]; unfold_methods;
    repeat untouched_step (gl_step_keeps_unit is_viewport).
Qed.

(** X4: The size the host reports is stored in the renderer and goes no
    further: [nativeOnSurfaceChanged] issues no call at all, and whatever
    the driver answers, no sequence of host callbacks issues glViewport.
    The viewport of the context is therefore never set by the program; it
    is what EGL gave the context when it was made current. *)
Theorem viewport_never_reaches_gl (ns : list JNI.Native)
    (g : JNI.renderer_ptr) (m : Machine) (width height : Z)
    (r : VRRenderer.t) :
  filter is_viewport (trace (snd (JNI.invoke_all ns g m)))
  = filter is_viewport (trace m)
  /\ JNI.nativeOnSurfaceChanged width height (Some r) m
     = (Some (VRRenderer.set_viewport_size width height r),
        mkMachine (trace m)
                  (logs m
                   ++ [mkLog ANDROID_LOG_INFO VRRenderer.LOG_TAG
                             "nativeOnSurfaceChanged: %dx%d"
                             [ArgInt width; ArgInt height];
                       mkLog ANDROID_LOG_INFO VRRenderer.LOG_TAG
                             "Viewport set to %dx%d (per-eye: %dx%d)"
                             [ArgInt width; ArgInt height;
                              ArgInt (Int.div width 2); ArgInt height]])
                  (gl m) (frameCount m) (env m)).
Proof.
  split.
  - apply (untouched_invoke_all is_viewport (fun _ => tt)).
    intros n g' _. apply invoke_no_viewport.
  - unfold JNI.nativeOnSurfaceChanged, VRRenderer.setViewport, VRRenderer.LOGI,
      bind, log_print, ret.
    cbn [trace logs gl frameCount env]. rewrite <- app_assoc. reflexivity.
Qed.

(** X5: Handles are given back by [nativeOnDestroy] and by nothing else: no
    other entry point deletes a vertex array, buffer, texture or program,
    destroys a context or surface, terminates the display or releases the
    window, so a second [nativeOnCreate] or [nativeOnSurfaceCreated]
    overwrites the handles it finds without releasing them. *)
Theorem only_destroy_tears_down (ns : list JNI.Native)
    (g : JNI.renderer_ptr) (m : Machine) :
  ~ In JNI.OnDestroy ns ->
  filter is_teardown (trace (snd (JNI.invoke_all ns g m)))
  = filter is_teardown (trace m).
Proof.
  intros Hns.
  apply (untouched_invoke_all is_teardown (fun _ => tt)).
  intros n g' Hin.
  destruct n, g' as [r |]; try (exfalso; apply Hns; exact Hin);
    cbn [JNI.invoke]; unfold_methods;
    repeat untouched_step (gl_step_keeps_unit is_teardown).
Qed.

Lemma only_destroy_tears_down_witness :
  filter is_teardown
    (trace (snd (JNI.invoke_all
                   [JNI.OnCreate; JNI.OnSurfaceCreated 7; JNI.OnCreate;
                    JNI.OnSurfaceCreated 9; JNI.OnDrawFrame]
                   None (machine0 env_ok))))
  = filter is_teardown (trace (machine0 env_ok)).
Proof.
  apply (only_destroy_tears_down
           [JNI.OnCreate; JNI.OnSurfaceCreated 7; JNI.OnCreate;
            JNI.OnSurfaceCreated 9; JNI.OnDrawFrame]
           None (machine0 env_ok)).
  intros Hin. repeat (destruct Hin as [Hin | Hin]; [discriminate |]).
  exact Hin.
Defined.

(** ** The test pattern, pixel by pixel *)

Lemma patternOf_lookup (w h x y : Z) :
  0 < w -> 0 < h ->
  w * h * 3 <= Int.max_signed ->
  w * 255 <= Int.max_signed -> h * 255 <= Int.max_signed ->
  0 <= x < w -> 0 <= y < h ->
  vector_size (VRRenderer.patternOf w h) = w * h * 3
  /\ VRRenderer.patternOf w h !! Z.to_nat (3 * (y * w + x))
     = Some (x * 255 / w)
  /\ VRRenderer.patternOf w h !! Z.to_nat (3 * (y * w + x) + 1)
     = Some (y * 255 / h)
  /\ VRRenderer.patternOf w h !! Z.to_nat (3 * (y * w + x) + 2) = Some 128.
Proof.
  intros Hw Hh Hsize Hred Hgreen Hx Hy.
  destruct (patternOf_written w h Hw Hh Hsize Hred Hgreen) as [Hlen Hpix].
  assert (Hj : 0 <= y * w + x < w * h) by nia.
  destruct (Hpix (y * w + x) Hj) as (Hr & Hg & Hb).
  assert (Hmod : (y * w + x) mod w = x)
    by (rewrite Z.add_comm, Z.mod_add by lia; apply Z.mod_small; lia).
  assert (Hdiv : (y * w + x) / w = y)
    by (rewrite Z.add_comm, Z.div_add by lia; rewrite Z.div_small by lia; lia).
  rewrite Hmod in Hr. rewrite Hdiv in Hg.
  split; [unfold vector_size; rewrite Hlen; lia |]. auto.
Qed.

(** X1: For sizes whose byte count and gradient products fit an [int], the
    pattern loops fill the whole vector: pixel (x, y) holds the red value
    x*255/w, the green value y*255/h and the blue value 128, at offset
    3*(y*w + x), and the vector has w*h*3 bytes. *)
Theorem patternOf_pixel (w h x y : Z) :
  0 < w -> 0 < h ->
  w * h * 3 <= Int.max_signed ->
  w * 255 <= Int.max_signed -> h * 255 <= Int.max_signed ->
  0 <= x < w -> 0 <= y < h ->
  vector_size (VRRenderer.patternOf w h) = w * h * 3
  /\ VRRenderer.patternOf w h !! Z.to_nat (3 * (y * w + x))
     = Some (x * 255 / w)
  /\ VRRenderer.patternOf w h !! Z.to_nat (3 * (y * w + x) + 1)
     = Some (y * 255 / h)
  /\ VRRenderer.patternOf w h !! Z.to_nat (3 * (y * w + x) + 2) = Some 128.
Proof. apply patternOf_lookup. Qed.

Lemma patternOf_pixel_witness :
  vector_size (VRRenderer.patternOf 4 2) = 4 * 2 * 3
  /\ VRRenderer.patternOf 4 2 !! Z.to_nat (3 * (1 * 4 + 3))
     = Some (3 * 255 / 4)
  /\ VRRenderer.patternOf 4 2 !! Z.to_nat (3 * (1 * 4 + 3) + 1)
     = Some (1 * 255 / 2)
  /\ VRRenderer.patternOf 4 2 !! Z.to_nat (3 * (1 * 4 + 3) + 2) = Some 128.
Proof.
  apply (patternOf_pixel 4 2 3 1); unfold Int.max_signed; lia.
Defined.



(** ** The projection matrix *)

(** X3: [getProjectionMatrix] writes the 4 x 4 identity for either eye and for any
    viewport, a zero height included: entry (row, col) is 1 on the diagonal
    and 0 elsewhere. *)
Theorem projection_matrix_entries (s : StereoRenderer.t) (isLeftEye : bool)
    (row col : Z) :
  0 <= row < 4 -> 0 <= col < 4 ->
  length (StereoRenderer.getProjectionMatrix s isLeftEye) = 16%nat
  /\ StereoRenderer.getProjectionMatrix s isLeftEye !! Z.to_nat (4 * row + col)
     = Some (if decide (row = col) then 1 else 0)
  /\ StereoRenderer.getProjectionMatrix s true
     = StereoRenderer.getProjectionMatrix s false.
Proof.
  intros Hrow Hcol.
  split; [reflexivity |]. split; [| reflexivity].
  assert (Hr : row = 0 \/ row = 1 \/ row = 2 \/ row = 3) by lia.
  assert (Hc : col = 0 \/ col = 1 \/ col = 2 \/ col = 3) by lia.
  destruct Hr as [-> | [-> | [-> | ->]]];
    destruct Hc as [-> | [-> | [-> | ->]]]; reflexivity.
Qed.

Lemma projection_matrix_entries_witness :
  StereoRenderer.getProjectionMatrix (StereoRenderer.mk 2048 0) true
    !! Z.to_nat (4 * 2 + 2)
  = Some (if decide (2 = 2) then 1 else 0).
Proof.
  destruct (projection_matrix_entries (StereoRenderer.mk 2048 0) true 2 2)
    as (_ & Hentry & _); [lia | lia |].
  exact Hentry.
Defined.

(** ** FrameDecoder: resizing the scratch buffer *)

(** X6: A [setDimensions] that fits keeps the bytes the buffer already had, up
    to the new size, and zero-fills what it adds. *)
Theorem setDimensions_keeps_contents (w h : Z) (d : FrameDecoder.t) :
  0 < w -> 0 < h -> w * h * 3 <= Int.max_signed ->
  exists d',
    FrameDecoder.setDimensions w h d = inr d'
    /\ forall i : nat,
         Z.of_nat i < w * h * 3 ->
         FrameDecoder.rgbBuffer d' !! i
         = Some (default 0 (FrameDecoder.rgbBuffer d !! i)).
Proof.
  intros Hw Hh Hsize.
  pose proof (mul3_in_range w h Hw Hh Hsize) as Hmul.
  unfold FrameDecoder.setDimensions. cbn [FrameDecoder.width FrameDecoder.height
                                          FrameDecoder.rgbBuffer].
  rewrite Hmul. unfold vector_resize.
  destruct (decide (w * h * 3 < 0)) as [Hneg | _]; [nia |].
  eexists. split; [reflexivity |].
  cbn [FrameDecoder.rgbBuffer]. intros i Hi.
  set (old := FrameDecoder.rgbBuffer d).
  destruct (decide (i < length old)%nat) as [Hin | Hout].
  - rewrite lookup_app_l by (rewrite length_take; lia).
    rewrite lookup_take_lt by lia.
    destruct (lookup_lt_is_Some_2 old i Hin) as [v Hv]. rewrite Hv. reflexivity.
  - rewrite take_ge by lia.
    rewrite lookup_app_r by lia.
    rewrite lookup_replicate_2 by lia.
    rewrite (lookup_ge_None_2 old i) by lia. reflexivity.
Qed.

Lemma setDimensions_keeps_contents_witness :
  exists d',
    FrameDecoder.setDimensions 2 1 (FrameDecoder.mk 1 1 [7; 8; 9]) = inr d'
    /\ FrameDecoder.rgbBuffer d' = [7; 8; 9; 0; 0; 0]
    /\ forall i : nat,
         Z.of_nat i < 2 * 1 * 3 ->
         FrameDecoder.rgbBuffer d' !! i
         = Some (default 0 ([7; 8; 9] !! i)).
Proof.
  destruct (setDimensions_keeps_contents 2 1 (FrameDecoder.mk 1 1 [7; 8; 9]))
    as (d' & Hset & Hkeep); [lia | lia | unfold Int.max_signed; lia |].
  exists d'. split; [exact Hset |]. split; [| exact Hkeep].
  vm_compute in Hset. injection Hset as <-. reflexivity.
Defined.

(** X7: On a decoder whose buffer already has width x height x 3 bytes,
    [setDimensions] with the same dimensions changes nothing, contents
    included. *)
Theorem setDimensions_same_size (d : FrameDecoder.t) :
  0 < FrameDecoder.width d -> 0 < FrameDecoder.height d ->
  FrameDecoder.width d * FrameDecoder.height d * 3 <= Int.max_signed ->
  FrameDecoder.buffer_ok d ->
  FrameDecoder.setDimensions (FrameDecoder.width d) (FrameDecoder.height d) d
  = inr d.
Proof.
  destruct d as [w h buf]. unfold FrameDecoder.buffer_ok, vector_size.
  cbn [FrameDecoder.width FrameDecoder.height FrameDecoder.rgbBuffer].
  intros Hw Hh Hsize Hok.
  unfold FrameDecoder.setDimensions.
  cbn [FrameDecoder.width FrameDecoder.height FrameDecoder.rgbBuffer].
  rewrite (mul3_in_range w h Hw Hh Hsize). unfold vector_resize.
  destruct (decide (w * h * 3 < 0)) as [Hneg | _]; [nia |].
  rewrite take_ge by lia.
  replace (Z.to_nat (w * h * 3) - length buf)%nat with O by lia.
  cbn [replicate]. rewrite app_nil_r. reflexivity.
Qed.

Lemma setDimensions_same_size_witness :
  FrameDecoder.setDimensions 2 1 (FrameDecoder.mk 2 1 [1; 2; 3; 4; 5; 6])
  = inr (FrameDecoder.mk 2 1 [1; 2; 3; 4; 5; 6]).
Proof.
  apply (setDimensions_same_size (FrameDecoder.mk 2 1 [1; 2; 3; 4; 5; 6]));
    [cbn; lia | cbn; lia | cbn; unfold Int.max_signed; lia
    | vm_compute; reflexivity].
Defined.

(** X8: Positive dimensions whose byte count lies between 2^31 and 2^32 make the
    [int] product negative: the constructor throws length_error, and
    [setDimensions] throws it after overwriting width and height, leaving a
    decoder whose buffer still has its old size. *)
Theorem oversized_dimensions_throw (w h : Z) (d : FrameDecoder.t) :
  0 < w -> 0 < h -> w * h <= Int.max_signed ->
  2 ^ 31 <= w * h * 3 < 2 ^ 32 ->
  FrameDecoder.new w h = inl length_error
  /\ FrameDecoder.setDimensions w h d
     = inl (length_error, FrameDecoder.mk w h (FrameDecoder.rgbBuffer d)).
Proof.
  unfold Int.max_signed. intros Hw Hh Hwh Hbig.
  assert (Hmul : Int.mul (Int.mul w h) 3 = w * h * 3 - 2 ^ 32).
  { unfold Int.mul. rewrite (wrap_in_range (w * h))
      by (unfold Int.in_range, Int.min_signed, Int.max_signed; nia).
    unfold Int.wrap.
    replace (w * h * 3 + 2 ^ 31) with (w * h * 3 - 2 ^ 31 + 1 * 2 ^ 32) by lia.
    rewrite Z.mod_add by lia. rewrite Z.mod_small by lia. lia. }
  unfold FrameDecoder.new, FrameDecoder.setDimensions.
  cbn [FrameDecoder.width FrameDecoder.height FrameDecoder.rgbBuffer].
  rewrite Hmul. unfold vector_resize.
  rewrite !decide_True by lia. split; reflexivity.
Qed.

Lemma oversized_dimensions_throw_witness :
  FrameDecoder.new 32768 32768 = inl length_error
  /\ FrameDecoder.setDimensions 32768 32768 (FrameDecoder.mk 1 1 [7; 8; 9])
     = inl (length_error, FrameDecoder.mk 32768 32768 [7; 8; 9]).
Proof.
  apply (oversized_dimensions_throw 32768 32768 (FrameDecoder.mk 1 1 [7; 8; 9]));
    unfold Int.max_signed; lia.
Defined.

(** ** FrameDecoder: uploads in sequence *)




(** ** VRRenderer: a frame in a valid state *)

Lemma three_calls_assoc (tr : list Call) (a b c : Call) :
  tr ++ [a; b; c] = ((tr ++ [a]) ++ [b]) ++ [c].
Proof. rewrite <- !app_assoc. reflexivity. Qed.

(** X10: In a valid state a frame leaves the renderer valid for the next one
    whether or not the swap succeeded: only the time step changes.  The
    frame counter goes up by one, the GL error flag is consumed, and the
    frame on display becomes the magenta clear exactly when eglSwapBuffers
    reports success; after a failed swap the display keeps what it showed. *)
Theorem renderFrame_keeps_session_usable (r : VRRenderer.t) (m : Machine) :
  ~ VRRenderer.no_window r -> ~ VRRenderer.invalid_egl r ->
  let swapped :=
    env_ret (env m)
      (trace m ++ [glClearColor 1 0 1 1;
                   glClear (Z.lor GL_COLOR_BUFFER_BIT GL_DEPTH_BUFFER_BIT);
                   glGetError])
      (eglSwapBuffers (VRRenderer.display r) (VRRenderer.surface r)) in
  let res := VRRenderer.renderFrame r m in
  fst res = VRRenderer.tick r
  /\ ~ VRRenderer.no_window (fst res)
  /\ ~ VRRenderer.invalid_egl (fst res)
  /\ frameCount (snd res) = Int.add (frameCount m) 1
  /\ gl_error (gl (snd res)) = GL_NO_ERROR
  /\ gl_front (gl (snd res))
     = (if decide (swapped = 0) then gl_front (gl m)
        else Some (Cleared magenta)).
Proof.
  intros Hw He swapped res. unfold res, swapped. clear res swapped.
  rewrite three_calls_assoc.
  unfold VRRenderer.renderFrame.
  rewrite decide_False by assumption. rewrite decide_False by assumption.
  run_monad. cbn [driver_step gl_step]. rewrite clear_mask_has_color_bit.
  case_branches; repeat split; try assumption; try reflexivity.
Qed.

Lemma renderFrame_keeps_session_usable_witness :
  fst (VRRenderer.renderFrame live_renderer (machine0 env_fail))
  = VRRenderer.tick live_renderer
  /\ gl_front (gl (snd (VRRenderer.renderFrame live_renderer
                                               (machine0 env_fail))))
     = None
  /\ gl_front (gl (snd (VRRenderer.renderFrame live_renderer
                                               (machine0 env_ok))))
     = Some (Cleared magenta).
Proof.
  destruct (renderFrame_keeps_session_usable live_renderer (machine0 env_fail))
    as (Hr & _ & _ & _ & _ & Hfront).
  - unfold VRRenderer.no_window. cbn. discriminate.
  - unfold VRRenderer.invalid_egl. cbn. intros [H | [H | H]]; discriminate.
  - split; [exact Hr |]. split; [exact Hfront |]. reflexivity.
Defined.

(** X11: What a frame in a valid state writes to the log, in this order: an
    error line with the code when a GL error was pending, an error line with
    the EGL code when the swap failed, and the info line 'Rendered frame'
    exactly when the new frame count is a multiple of 60. *)
Theorem renderFrame_log_lines (r : VRRenderer.t) (m : Machine) :
  ~ VRRenderer.no_window r -> ~ VRRenderer.invalid_egl r ->
  let before_swap :=
    trace m ++ [glClearColor 1 0 1 1;
                glClear (Z.lor GL_COLOR_BUFFER_BIT GL_DEPTH_BUFFER_BIT);
                glGetError] in
  let swap := eglSwapBuffers (VRRenderer.display r) (VRRenderer.surface r) in
  let n := Int.add (frameCount m) 1 in
  logs (exec (VRRenderer.renderFrame r) m)
  = logs m
    ++ (if decide (gl_error (gl m) = GL_NO_ERROR) then []
        else [mkLog ANDROID_LOG_ERROR VRRenderer.LOG_TAG
                    "OpenGL error after clear: 0x%x"
                    [ArgInt (gl_error (gl m))]])
    ++ (if decide (env_ret (env m) before_swap swap = 0)
        then [mkLog ANDROID_LOG_ERROR VRRenderer.LOG_TAG
                    "eglSwapBuffers failed! Error: 0x%x"
                    [ArgInt (env_ret (env m) (before_swap ++ [swap])
                                     eglGetError)]]
        else [])
    ++ (if decide (Int.rem n 60 = 0)
        then [mkLog ANDROID_LOG_INFO VRRenderer.LOG_TAG
                    "Rendered frame %d - MAGENTA SHOULD BE VISIBLE"
                    [ArgInt n]]
        else []).
Proof.
  intros Hw He before_swap swap n. unfold before_swap, swap, n.
  clear before_swap swap n.
  rewrite three_calls_assoc.
  unfold VRRenderer.renderFrame.
  rewrite decide_False by assumption. rewrite decide_False by assumption.
  run_monad. cbn [driver_step gl_step answer]. rewrite clear_mask_has_color_bit.
  cbn [gl trace logs env frameCount gl_error set_back set_clear_color
       gl_textures gl_bound gl_clear_color gl_viewport gl_back gl_front].
  assert (Hnz : nonzero (gl_error (gl m))
                = if decide (gl_error (gl m) = GL_NO_ERROR) then false else true).
  { unfold nonzero, GL_NO_ERROR.
    destruct (Z.eqb_spec (gl_error (gl m)) 0) as [Hc | Hc];
      [rewrite decide_True by exact Hc | rewrite decide_False by exact Hc];
      reflexivity. }
  assert (Hsixty : (Int.rem (Int.add (frameCount m) 1) 60 =? 0)
                   = if decide (Int.rem (Int.add (frameCount m) 1) 60 = 0)
                     then true else false).
  { destruct (Z.eqb_spec (Int.rem (Int.add (frameCount m) 1) 60) 0)
      as [Hc | Hc];
      [rewrite decide_True by exact Hc | rewrite decide_False by exact Hc];
      reflexivity. }
  rewrite Hnz.
  destruct (decide (gl_error (gl m) = GL_NO_ERROR)) as [Hclean | Hpending];
    cbn;
    match goal with
    | |- context [decide (env_ret ?e ?t ?c = 0)] =>
        destruct (decide (env_ret e t c = 0))
    end; cbn; rewrite Hsixty;
    destruct (decide (Int.rem (Int.add (frameCount m) 1) 60 = 0)); cbn;
    rewrite <- ?app_assoc, ?app_nil_r; reflexivity.
Qed.

Lemma renderFrame_log_lines_witness :
  logs (exec (VRRenderer.renderFrame live_renderer)
             (mkMachine [] [] gl_init 59 env_ok))
  = [mkLog ANDROID_LOG_INFO VRRenderer.LOG_TAG
           "Rendered frame %d - MAGENTA SHOULD BE VISIBLE" [ArgInt 60]].
Proof.
  rewrite (renderFrame_log_lines live_renderer
             (mkMachine [] [] gl_init 59 env_ok)).
  - reflexivity.
  - unfold VRRenderer.no_window. cbn. discriminate.
  - unfold VRRenderer.invalid_egl. cbn. intros [H | [H | H]]; discriminate.
Defined.

(** ** VRRenderer: attaching to a window *)

Ltac run_all :=
  unfold exec, eval, bind, when, VRRenderer.call_if, VRRenderer.LOGE,
    VRRenderer.LOGI, incr_frameCount, log_print, api, api_out, api_str, ret;
  cbn [trace logs gl frameCount env fst snd].

(** X12: When [initializeEGL] returns true, the renderer holds the window it was
    given and a display, surface and context that are none of the EGL_NO_*
    sentinels, so with a non-null window [renderFrame] will pass both its
    guards; the GL handles and the viewport size are untouched, the only log
    line is the success line, and the last call is eglSwapInterval(display, 1). *)
Theorem initializeEGL_success_is_live (nativeWindow : Z) (r : VRRenderer.t)
    (m : Machine) :
  fst (eval (VRRenderer.initializeEGL nativeWindow r) m) = true ->
  let r' := snd (eval (VRRenderer.initializeEGL nativeWindow r) m) in
  let m' := exec (VRRenderer.initializeEGL nativeWindow r) m in
  VRRenderer.window r' = nativeWindow
  /\ ~ VRRenderer.invalid_egl r'
  /\ (nativeWindow <> nullptr -> ~ VRRenderer.no_window r')
  /\ (VRRenderer.shaderProgram r', VRRenderer.vao r', VRRenderer.vbo r',
      VRRenderer.leftEyeTexture r', VRRenderer.rightEyeTexture r')
     = (VRRenderer.shaderProgram r, VRRenderer.vao r, VRRenderer.vbo r,
        VRRenderer.leftEyeTexture r, VRRenderer.rightEyeTexture r)
  /\ (VRRenderer.viewportWidth r', VRRenderer.viewportHeight r')
     = (VRRenderer.viewportWidth r, VRRenderer.viewportHeight r)
  /\ logs m' = logs m ++ [mkLog ANDROID_LOG_INFO VRRenderer.LOG_TAG
                                "EGL initialized successfully" []]
  /\ last (trace m') = Some (eglSwapInterval (VRRenderer.display r') 1).
Proof.
  unfold VRRenderer.initializeEGL, VRRenderer.invalid_egl,
    VRRenderer.no_window. run_all.
  case_branches; intros Hok; try discriminate Hok.
  cbn in *.
  split; [reflexivity |].
  split; [intros [H | [H | H]]; contradiction |].
  split; [intros Hwin; exact Hwin |].
  split; [reflexivity |]. split; [reflexivity |]. split; [reflexivity |].
  apply last_snoc.
Qed.

Lemma initializeEGL_success_is_live_witness :
  let r' := snd (eval (VRRenderer.initializeEGL 5 VRRenderer.new)
                      (machine0 env_ok)) in
  VRRenderer.window r' = 5
  /\ ~ VRRenderer.invalid_egl r'
  /\ (5 <> nullptr -> ~ VRRenderer.no_window r').
Proof.
  destruct (initializeEGL_success_is_live 5 VRRenderer.new (machine0 env_ok))
    as (Hwin & Hegl & Hnw & _); [reflexivity |].
  split; [exact Hwin |]. split; [exact Hegl | exact Hnw].
Defined.



(** ** VRRenderer: shaders *)



Lemma run_api_plain (c : Call) (m : Machine) :
  is_plain c = true ->
  api c m
  = (env_ret (env m) (trace m) c,
     mkMachine (trace m ++ [c]) (logs m) (gl m) (frameCount m) (env m)).
Proof. intros Hc. destruct c; try discriminate Hc; reflexivity. Qed.

Ltac step_plain :=
  rewrite run_api_plain by reflexivity;
  cbn [trace logs gl frameCount env fst snd].

Lemma createShaderProgram_no_gen (v f : ShaderText) :
  untouched is_gen (fun _ : GLState => tt)
            (VRRenderer.createShaderProgram v f).
Proof.
  unfold VRRenderer.createShaderProgram, VRRenderer.compileShader,
    VRRenderer.LOGE.
  repeat untouched_step (gl_step_keeps_unit is_gen).
Qed.

Lemma run_createTexture (m : Machine) :
  let texture := answer (glGenTextures 1) m in
  VRRenderer.createTexture m
  = (texture,
     mkMachine
       (trace m
        ++ [glGenTextures 1; glBindTexture GL_TEXTURE_2D texture;
            glTexParameteri GL_TEXTURE_2D GL_TEXTURE_MIN_FILTER GL_LINEAR;
            glTexParameteri GL_TEXTURE_2D GL_TEXTURE_MAG_FILTER GL_LINEAR;
            glTexParameteri GL_TEXTURE_2D GL_TEXTURE_WRAP_S GL_CLAMP_TO_EDGE;
            glTexParameteri GL_TEXTURE_2D GL_TEXTURE_WRAP_T GL_CLAMP_TO_EDGE])
       (logs m) (set_bound texture (gl m)) (frameCount m) (env m)).
Proof.
  unfold VRRenderer.createTexture. run_all. cbn [driver_step gl_step].
  rewrite <- !app_assoc. reflexivity.
Qed.

(** X15: [initialize] returns true exactly when the program handle it stored is
    non-zero.  On failure it stops before creating anything else: geometry
    and texture handles are as before, no glGen* call is issued, and the
    last log line is the error.  On success it has asked for one vertex
    array, one buffer and two textures, in this order, and leaves the
    right-eye texture bound.  In both cases the window, the EGL handles and
    the viewport size are untouched. *)
Theorem initialize_result (r : VRRenderer.t) (m : Machine) :
  let ok := fst (eval (VRRenderer.initialize r) m) in
  let r' := snd (eval (VRRenderer.initialize r) m) in
  let m' := exec (VRRenderer.initialize r) m in
  (ok = true <-> VRRenderer.shaderProgram r' <> 0)
  /\ (ok = false ->
      (VRRenderer.vao r', VRRenderer.vbo r', VRRenderer.leftEyeTexture r',
       VRRenderer.rightEyeTexture r')
      = (VRRenderer.vao r, VRRenderer.vbo r, VRRenderer.leftEyeTexture r,
         VRRenderer.rightEyeTexture r)
      /\ filter is_gen (trace m') = filter is_gen (trace m)
      /\ last (logs m')
         = Some (mkLog ANDROID_LOG_ERROR VRRenderer.LOG_TAG
                       "Failed to create shader program" []))
  /\ (ok = true ->
      filter is_gen (trace m')
      = filter is_gen (trace m)
        ++ [glGenVertexArrays 1; glGenBuffers 1; glGenTextures 1;
            glGenTextures 1]
      /\ gl_bound (gl m') = VRRenderer.rightEyeTexture r'
      /\ last (logs m')
         = Some (mkLog ANDROID_LOG_INFO VRRenderer.LOG_TAG
                       "VR Renderer initialized successfully" []))
  /\ (VRRenderer.display r', VRRenderer.surface r', VRRenderer.context r',
      VRRenderer.window r', VRRenderer.viewportWidth r',
      VRRenderer.viewportHeight r')
     = (VRRenderer.display r, VRRenderer.surface r, VRRenderer.context r,
        VRRenderer.window r, VRRenderer.viewportWidth r,
        VRRenderer.viewportHeight r).
Proof.
  unfold VRRenderer.initialize. unfold eval, exec, bind, VRRenderer.LOGI,
    VRRenderer.LOGE. rewrite !run_log_print.
  match goal with
  | |- context [VRRenderer.createShaderProgram ?v ?f ?m0] =>
      pose proof (createShaderProgram_no_gen v f m0) as [Hgen _];
      destruct (VRRenderer.createShaderProgram v f m0) as [program m1]
  end.
  cbn [snd trace] in Hgen. cbn [VRRenderer.shaderProgram
                                VRRenderer.set_shaderProgram].
  destruct (decide (program = 0)) as [Hzero | Hnonzero].
  - rewrite run_log_print. unfold ret. cbn.
    split; [split; [discriminate | intros Hp; contradiction] |].
    split; [intros _; split; [reflexivity |];
            split; [exact Hgen | apply last_snoc] |].
    split; [discriminate | reflexivity].
  - repeat step_plain.
    rewrite run_createTexture. cbn [trace logs gl frameCount env answer].
    rewrite run_createTexture. cbn [trace logs gl frameCount env answer].
    rewrite run_log_print. unfold ret.
    cbn [fst snd trace logs gl frameCount env gl_bound set_bound
         VRRenderer.shaderProgram VRRenderer.vao VRRenderer.vbo
         VRRenderer.leftEyeTexture VRRenderer.rightEyeTexture
         VRRenderer.display VRRenderer.surface VRRenderer.context
         VRRenderer.window VRRenderer.viewportWidth VRRenderer.viewportHeight
         VRRenderer.set_shaderProgram VRRenderer.set_geometry
         VRRenderer.set_leftEyeTexture VRRenderer.set_rightEyeTexture].
    split; [split; [intros _; exact Hnonzero | reflexivity] |].
    split; [discriminate |].
    split; [| reflexivity].
    intros _. split; [| split; [reflexivity | apply last_snoc]].
    rewrite !filter_app, Hgen. cbn.
    rewrite ?(decide_True (P := True)) by exact I.
    rewrite ?(decide_False (P := False)) by (intros []).
    cbn. rewrite <- !app_assoc. reflexivity.
Qed.

(** ** VRRenderer: cleanup *)

Lemma issues_ret {A} (a : A) : issues (ret a) [].
Proof. intros m. split; [symmetry; apply app_nil_r | reflexivity]. Qed.

Lemma issues_bind {A B} (c : M A) (k : A -> M B) (l1 l2 : list Call) :
  issues c l1 -> (forall a, issues (k a) l2) -> issues (bind c k) (l1 ++ l2).
Proof.
  intros Hc Hk m. unfold bind. destruct (Hc m) as [Ht Hl].
  destruct (c m) as [a m1]. destruct (Hk a m1) as [Ht' Hl'].
  cbn [snd] in *. split; [rewrite Ht', Ht; symmetry; apply app_assoc |].
  congruence.
Qed.

Lemma issues_api (c : Call) : issues (api c) [c].
Proof. intros m. split; reflexivity. Qed.

Lemma issues_call_if (b : bool) (c : Call) :
  issues (VRRenderer.call_if b c) (if b then [c] else []).
Proof.
  destruct b; unfold VRRenderer.call_if, when.
  - change [c] with ([c] ++ []). apply issues_bind.
    + apply issues_api.
    + intros _. apply issues_ret.
  - apply issues_ret.
Qed.

Lemma issues_eq {A} (c : M A) (l l' : list Call) :
  issues c l -> l = l' -> issues c l'.
Proof. intros Hc <-. exact Hc. Qed.

Lemma cleanup_issues (r : VRRenderer.t) :
  issues (VRRenderer.cleanup r)
         (cleanup_gl_calls r ++ cleanup_egl_calls r ++ cleanup_window_calls r).
Proof.
  unfold VRRenderer.cleanup, cleanup_gl_calls, cleanup_egl_calls,
    cleanup_window_calls.
  eapply issues_eq.
  - repeat (apply issues_bind; [apply issues_call_if | intros _]).
    apply issues_bind; [| intros _; apply issues_call_if].
    instantiate (1 := cleanup_egl_calls r). unfold cleanup_egl_calls.
    destruct (decide (VRRenderer.display r <> EGL_NO_DISPLAY)).
    + eapply issues_eq.
      * apply issues_bind; [apply issues_api | intros _].
        apply issues_bind; [apply issues_call_if | intros _].
        apply issues_bind; [apply issues_call_if | intros _].
        apply issues_bind; [apply issues_api | intros _].
        apply issues_ret.
      * rewrite app_nil_r. reflexivity.
    + apply issues_ret.
  - unfold cleanup_egl_calls. rewrite <- !app_assoc. reflexivity.
Qed.

(** X16: [cleanup] deletes the GL objects first, while the context is still
    current, then unbinds the context, destroys context and surface and
    terminates the display, and releases the window last.  Without a
    display it makes no EGL call at all, whatever the context and surface
    fields hold.  It writes nothing to the log. *)
Theorem cleanup_order (r : VRRenderer.t) (m : Machine) :
  exists gpu egl win,
    trace (exec (VRRenderer.cleanup r) m) = trace m ++ gpu ++ egl ++ win
    /\ logs (exec (VRRenderer.cleanup r) m) = logs m
    /\ forallb is_gl_delete gpu = true
    /\ forallb is_egl egl = true
    /\ forallb is_window_release win = true
    /\ (VRRenderer.display r = EGL_NO_DISPLAY -> egl = [])
    /\ (VRRenderer.display r <> EGL_NO_DISPLAY ->
        head egl = Some (eglMakeCurrent (VRRenderer.display r) EGL_NO_SURFACE
                                        EGL_NO_SURFACE EGL_NO_CONTEXT)
        /\ last egl = Some (eglTerminate (VRRenderer.display r)))
    /\ (VRRenderer.window r <> nullptr ->
        win = [ANativeWindow_release (VRRenderer.window r)]).
Proof.
  exists (cleanup_gl_calls r), (cleanup_egl_calls r), (cleanup_window_calls r).
  destruct (cleanup_issues r m) as [Htrace Hlogs].
  split; [exact Htrace |]. split; [exact Hlogs |].
  split; [unfold cleanup_gl_calls; repeat (destruct (nonzero _)); reflexivity |].
  split; [unfold cleanup_egl_calls; case_decide; [| reflexivity];
          repeat (destruct (bool_decide _)); reflexivity |].
  split; [unfold cleanup_window_calls; destruct (nonzero _); reflexivity |].
  split; [intros Hd; unfold cleanup_egl_calls; rewrite decide_False by tauto;
          reflexivity |].
  split.
  - intros Hd. unfold cleanup_egl_calls. rewrite decide_True by exact Hd.
    split; [reflexivity |].
    rewrite !app_assoc. apply last_snoc.
  - intros Hw. unfold cleanup_window_calls, nonzero, nullptr in *.
    apply Z.eqb_neq in Hw. rewrite Hw. reflexivity.
Qed.

Lemma cleanup_order_witness :
  exists gpu egl win,
    trace (exec (VRRenderer.cleanup live_renderer) (machine0 env_ok))
    = [] ++ gpu ++ egl ++ win
    /\ last egl = Some (eglTerminate 2)
    /\ win = [ANativeWindow_release 1].
Proof.
  destruct (cleanup_order live_renderer (machine0 env_ok))
    as (gpu & egl & win & Htrace & _ & _ & _ & _ & _ & Hegl & Hwin).
  exists gpu, egl, win. split; [exact Htrace |]. split.
  - apply Hegl. discriminate.
  - apply Hwin. discriminate.
Defined.

(** X17: [cleanup] does not reset the handles it releases: what it issues depends
    on the renderer's fields only, so calling it again on the same object
    issues every delete, destroy, terminate and release a second time. *)
Theorem cleanup_twice_releases_twice (r : VRRenderer.t) (m : Machine) :
  exists calls,
    trace (exec (VRRenderer.cleanup r) m) = trace m ++ calls
    /\ trace (exec (VRRenderer.cleanup r;; VRRenderer.cleanup r) m)
       = trace m ++ calls ++ calls
    /\ (VRRenderer.window r <> nullptr ->
        In (ANativeWindow_release (VRRenderer.window r)) calls)
    /\ (VRRenderer.display r <> EGL_NO_DISPLAY ->
        In (eglTerminate (VRRenderer.display r)) calls)
    /\ (forall m', trace (exec (VRRenderer.cleanup r) m') = trace m' ++ calls).
Proof.
  exists (cleanup_gl_calls r ++ cleanup_egl_calls r ++ cleanup_window_calls r).
  split; [apply cleanup_issues |].
  split; [apply (issues_bind _ _ _ _ (cleanup_issues r)
                             (fun _ => cleanup_issues r)) |].
  split; [| split; [| intros m'; apply cleanup_issues]].
  - intros Hw. rewrite !in_app_iff. right. right.
    unfold cleanup_window_calls, nonzero, nullptr in *.
    apply Z.eqb_neq in Hw. rewrite Hw. left. reflexivity.
  - intros Hd. rewrite !in_app_iff. right. left.
    unfold cleanup_egl_calls. rewrite decide_True by exact Hd.
    rewrite !in_app_iff. right. right. right. left. reflexivity.
Qed.

Lemma cleanup_twice_releases_twice_witness :
  exists calls,
    trace (exec (VRRenderer.cleanup live_renderer;;
                 VRRenderer.cleanup live_renderer) (machine0 env_ok))
    = [] ++ calls ++ calls
    /\ In (ANativeWindow_release 1) calls
    /\ In (eglTerminate 2) calls.
Proof.
  destruct (cleanup_twice_releases_twice live_renderer (machine0 env_ok))
    as (calls & _ & Htwice & Hwin & Hdpy & _).
  exists calls. split; [exact Htwice |]. split.
  - apply Hwin. discriminate.
  - apply Hdpy. discriminate.
Defined.

(** ** JNI: attaching and detaching a surface *)

Lemma extends_ret {A} (a : A) : extends (ret a).
Proof.
  intros m. exists [], []. cbn. rewrite !app_nil_r. auto.
Qed.

Lemma extends_bind {A B} (c : M A) (k : A -> M B) :
  extends c -> (forall a, extends (k a)) -> extends (bind c k).
Proof.
  intros Hc Hk m. unfold bind. destruct (Hc m) as (t1 & l1 & Ht & Hl & He).
  destruct (c m) as [a m1]. destruct (Hk a m1) as (t2 & l2 & Ht' & Hl' & He').
  cbn [snd] in *. exists (t1 ++ t2), (l1 ++ l2).
  rewrite Ht', Hl', He', Ht, Hl, He, <- !app_assoc. auto.
Qed.

Lemma extends_api (c : Call) : extends (api c).
Proof. intros m. exists [c], []. cbn. rewrite app_nil_r. auto. Qed.

Lemma extends_api_out (c : Call) : extends (api_out c).
Proof. intros m. exists [c], []. cbn. rewrite app_nil_r. auto. Qed.

Lemma extends_api_str (c : Call) : extends (api_str c).
Proof. intros m. exists [c], []. cbn. rewrite app_nil_r. auto. Qed.

Lemma extends_log (q : Priority) (tag fmt : string) (args : list LogArg) :
  extends (log_print q tag fmt args).
Proof.
  intros m. exists [], [mkLog q tag fmt args]. cbn. rewrite app_nil_r. auto.
Qed.

Ltac extends_step :=
  match goal with
  | |- extends (ret _) => apply extends_ret
  | |- extends (log_print _ _ _ _) => apply extends_log
  | |- extends (api _) => apply extends_api
  | |- extends (api_out _) => apply extends_api_out
  | |- extends (api_str _) => apply extends_api_str
  | |- extends (bind _ _) => apply extends_bind; [| intros ?]
  | |- extends (if ?b then _ else _) => destruct b
  | |- extends (match ?b with left _ => _ | right _ => _ end) => destruct b
  end.

Lemma initializeEGL_extends (w : Z) (r : VRRenderer.t) :
  extends (VRRenderer.initializeEGL w r).
Proof.
  unfold VRRenderer.initializeEGL, VRRenderer.LOGE, VRRenderer.LOGI.
  repeat extends_step.
Qed.

Lemma initializeEGL_window (w : Z) (r : VRRenderer.t) (m : Machine) :
  VRRenderer.window (snd (eval (VRRenderer.initializeEGL w r) m)) = w.
Proof.
  unfold VRRenderer.initializeEGL. run_all. case_branches; reflexivity.
Qed.

Lemma initialize_window (r : VRRenderer.t) (m : Machine) :
  VRRenderer.window (snd (eval (VRRenderer.initialize r) m))
  = VRRenderer.window r.
Proof.
  unfold VRRenderer.initialize. unfold eval, bind, VRRenderer.LOGI,
    VRRenderer.LOGE. rewrite !run_log_print.
  match goal with
  | |- context [VRRenderer.createShaderProgram ?v ?f ?m0] =>
      destruct (VRRenderer.createShaderProgram v f m0) as [program m1]
  end.
  case_decide.
  - rewrite run_log_print. reflexivity.
  - repeat step_plain. rewrite !run_createTexture.
    rewrite run_log_print. reflexivity.
Qed.

Section FirstCall.

Variable first : Call.

Let starts {A} (c : M A) : Prop :=
  forall m, exists rest, trace (snd (c m)) = trace m ++ first :: rest.

Lemma starts_api : starts (api first).
Proof. intros m. exists []. reflexivity. Qed.

Lemma starts_bind_l {A B} (c : M A) (k : A -> M B) :
  starts c -> (forall a, extends (k a)) -> starts (bind c k).
Proof.
  intros Hc Hk m. unfold bind. destruct (Hc m) as [rest Ht].
  destruct (c m) as [a m1]. destruct (Hk a m1) as (calls & _ & Ht' & _).
  cbn [snd] in *. exists (rest ++ calls).
  rewrite Ht', Ht, <- app_assoc. reflexivity.
Qed.

Lemma starts_after_log {B} (q : Priority) (tag fmt : string)
    (args : list LogArg) (k : unit -> M B) :
  (forall a, starts (k a)) -> starts (bind (log_print q tag fmt args) k).
Proof.
  intros Hk m. unfold bind. rewrite run_log_print.
  destruct (Hk tt (mkMachine (trace m) (logs m ++ [mkLog q tag fmt args])
                             (gl m) (frameCount m) (env m)))
    as [rest Ht].
  exists rest. exact Ht.
Qed.

End FirstCall.

(** The first call of [initialize] is glCreateShader(GL_VERTEX_SHADER);
    everything after it only appends. *)
Lemma initialize_starts_with_shader (r : VRRenderer.t) (m : Machine) :
  exists rest,
    trace (exec (VRRenderer.initialize r) m)
    = trace m ++ glCreateShader GL_VERTEX_SHADER :: rest.
Proof.
  revert m. unfold exec, VRRenderer.initialize, VRRenderer.LOGI at 1.
  apply starts_after_log. intros _.
  apply starts_bind_l.
  - unfold VRRenderer.createShaderProgram. apply starts_bind_l.
    + unfold VRRenderer.compileShader at 1. apply starts_bind_l.
      * apply starts_api.
      * intros shader. unfold VRRenderer.LOGE. repeat extends_step.
    + intros vertexShader.
      unfold VRRenderer.compileShader, VRRenderer.LOGE. repeat extends_step.
  - intros program.
    unfold VRRenderer.createTexture, VRRenderer.LOGE, VRRenderer.LOGI.
    cbv zeta. repeat extends_step.
Qed.

Lemma surfaceCreated_attach_window (surface : Z) (r : VRRenderer.t)
    (m : Machine) :
  exists r',
    fst (JNI.nativeOnSurfaceCreated surface (Some r) m) = Some r'
    /\ VRRenderer.window r'
       = env_ret (env m) (trace m) (ANativeWindow_fromSurface surface).
Proof.
  unfold JNI.nativeOnSurfaceCreated, VRRenderer.LOGI, bind.
  rewrite run_log_print. rewrite run_api_plain by reflexivity.
  cbn [trace logs gl frameCount env].
  match goal with
  | |- context [VRRenderer.initializeEGL ?w r ?m0] =>
      pose proof (initializeEGL_window w r m0) as Hwin;
      unfold eval in Hwin;
      destruct (VRRenderer.initializeEGL w r m0) as [[ok1 r1] m1]
  end.
  cbn [fst snd] in *.
  pose proof (initialize_window r1 m1) as Hwin2. unfold eval in Hwin2.
  destruct (VRRenderer.initialize r1 m1) as [[ok2 r2] m2].
  cbn [fst snd] in *. unfold ret. cbn [fst snd].
  exists r2. split; [reflexivity | congruence].
Qed.

(** X18: [nativeOnSurfaceCreated] ignores what [initializeEGL] returns: whether
    or not EGL could be set up, [initialize] runs next and starts issuing GL
    calls with glCreateShader(GL_VERTEX_SHADER).  The renderer ends up
    holding the window handle that ANativeWindow_fromSurface returned. *)
Theorem surfaceCreated_always_initializes (surface : Z) (r : VRRenderer.t)
    (m : Machine) :
  let w := env_ret (env m) (trace m) (ANativeWindow_fromSurface surface) in
  let res := JNI.nativeOnSurfaceCreated surface (Some r) m in
  exists r' egl_calls rest,
    fst res = Some r'
    /\ VRRenderer.window r' = w
    /\ trace (snd res)
       = trace m ++ ANativeWindow_fromSurface surface
                 :: egl_calls ++ glCreateShader GL_VERTEX_SHADER :: rest.
Proof.
  intros w res. unfold res, JNI.nativeOnSurfaceCreated, VRRenderer.LOGI, bind.
  rewrite run_log_print. rewrite run_api_plain by reflexivity.
  cbn [trace logs gl frameCount env]. fold w.
  match goal with
  | |- context [VRRenderer.initializeEGL w r ?m0] =>
      pose proof (initializeEGL_extends w r m0) as (egl & _ & Hegl & _ & _);
      pose proof (initializeEGL_window w r m0) as Hwin;
      unfold eval in Hwin;
      destruct (VRRenderer.initializeEGL w r m0) as [[ok1 r1] m1]
  end.
  cbn [fst snd trace] in *.
  pose proof (initialize_starts_with_shader r1 m1) as [rest Hinit].
  pose proof (initialize_window r1 m1) as Hwin2.
  unfold eval, exec in *.
  destruct (VRRenderer.initialize r1 m1) as [[ok2 r2] m2].
  cbn [fst snd] in *. unfold ret. cbn [fst snd].
  exists r2, egl, rest. split; [reflexivity |].
  split; [congruence |].
  rewrite Hinit, Hegl, <- !app_assoc. reflexivity.
Qed.

(** X19: The window acquired when the surface is created is the one given back
    when the activity is destroyed: after [nativeOnSurfaceCreated], whatever
    step of the setup failed, [nativeOnDestroy] nulls the renderer pointer
    and, when ANativeWindow_fromSurface returned a non-null handle, its last
    call is ANativeWindow_release of that handle. *)
Theorem window_released_on_destroy (surface : Z) (r : VRRenderer.t)
    (m : Machine) :
  let w := env_ret (env m) (trace m) (ANativeWindow_fromSurface surface) in
  let attached := JNI.nativeOnSurfaceCreated surface (Some r) m in
  let destroyed := JNI.nativeOnDestroy (fst attached) (snd attached) in
  w <> nullptr ->
  fst destroyed = None
  /\ last (trace (snd destroyed)) = Some (ANativeWindow_release w).
Proof.
  intros w attached destroyed Hw.
  destruct (surfaceCreated_attach_window surface r m) as (r' & Hptr & Hwin).
  fold w in Hwin. fold attached in Hptr.
  unfold destroyed. rewrite Hptr.
  unfold JNI.nativeOnDestroy, VRRenderer.LOGI, bind. rewrite run_log_print.
  match goal with
  | |- context [VRRenderer.cleanup r' ?m0] =>
      destruct (cleanup_issues r' m0) as [Htrace _];
      destruct (VRRenderer.cleanup r' m0) as [[] m1]
  end.
  unfold ret. cbn [fst snd trace] in *. split; [reflexivity |].
  rewrite Htrace. unfold cleanup_window_calls. rewrite Hwin.
  assert (Hnz : nonzero w = true)
    by (unfold nonzero, nullptr in *; apply Z.eqb_neq in Hw; rewrite Hw;
        reflexivity).
  rewrite Hnz. rewrite !app_assoc. apply last_snoc.
Qed.

Lemma window_released_on_destroy_witness :
  last (trace (snd (JNI.nativeOnDestroy
                      (fst (JNI.nativeOnSurfaceCreated 7 (Some VRRenderer.new)
                                                       (machine0 env_ok)))
                      (snd (JNI.nativeOnSurfaceCreated 7 (Some VRRenderer.new)
                                                       (machine0 env_ok))))))
  = Some (ANativeWindow_release 1).
Proof.
  apply (window_released_on_destroy 7 VRRenderer.new (machine0 env_ok)).
  discriminate.
Defined.

(** ** JNI: delivering a frame *)

(** X20: With a renderer in place, [nativeUpdateTexture] pins the left and then
    the right array, runs the texture update, and unpins both in the same
    order with JNI_ABORT, so nothing is copied back; no array is pinned or
    unpinned in between, and the renderer object is returned unchanged. *)
Theorem updateTexture_unpins_arrays (leftData rightData : list Z)
    (leftSize rightSize : Z) (r : VRRenderer.t) (m : Machine) :
  let res := JNI.nativeUpdateTexture leftData leftSize rightData rightSize
                                     (Some r) m in
  fst res = Some r
  /\ exists gl_calls,
       trace (snd res)
       = trace m
         ++ [GetByteArrayElements leftData; GetByteArrayElements rightData]
         ++ gl_calls
         ++ [ReleaseByteArrayElements leftData JNI_ABORT;
             ReleaseByteArrayElements rightData JNI_ABORT]
       /\ filter is_jni_array gl_calls = [].
Proof.
  intros res. unfold res, JNI.nativeUpdateTexture, bind.
  repeat step_plain.
  match goal with
  | |- context [VRRenderer.updateTexture ?l ?ls ?rd ?rs r ?m0] =>
      assert (Hext : extends (VRRenderer.updateTexture l ls rd rs r))
        by (unfold VRRenderer.updateTexture, VRRenderer.LOGI;
            repeat extends_step);
      assert (Hjni : untouched is_jni_array (fun _ : GLState => tt)
                               (VRRenderer.updateTexture l ls rd rs r))
        by (unfold VRRenderer.updateTexture, VRRenderer.LOGI;
            repeat untouched_step (gl_step_keeps_unit is_jni_array));
      destruct (Hext m0) as (calls & _ & Htrace & _ & _);
      destruct (Hjni m0) as [Hfilter _];
      destruct (VRRenderer.updateTexture l ls rd rs r m0) as [[] m1]
  end.
  cbn [fst snd trace] in *. repeat step_plain. unfold ret. cbn [fst snd trace].
  split; [reflexivity |]. exists calls. split.
  - rewrite Htrace, <- !app_assoc. reflexivity.
  - rewrite Htrace, filter_app in Hfilter.
    apply (app_inv_head (filter is_jni_array
                           ((trace m ++ [GetByteArrayElements leftData])
                            ++ [GetByteArrayElements rightData]))).
    rewrite app_nil_r. exact Hfilter.
Qed.

(** ** VRRenderer: drawing one eye *)

Lemma createShaderProgram_env (v f : ShaderText) :
  extends (VRRenderer.createShaderProgram v f).
Proof.
  unfold VRRenderer.createShaderProgram, VRRenderer.compileShader,
    VRRenderer.LOGE.
  repeat extends_step.
Qed.

(** After a successful [initialize] the last vertex array bound is 0. *)
Lemma initialize_unbinds_array (r : VRRenderer.t) (m : Machine) :
  fst (eval (VRRenderer.initialize r) m) = true ->
  let r' := snd (eval (VRRenderer.initialize r) m) in
  let m' := exec (VRRenderer.initialize r) m in
  VRRenderer.shaderProgram r' <> 0
  /\ last (filter is_bind_vertex_array (trace m'))
     = Some (glBindVertexArray 0)
  /\ env m' = env m.
Proof.
  unfold VRRenderer.initialize. unfold eval, exec, bind, VRRenderer.LOGI,
    VRRenderer.LOGE. rewrite !run_log_print.
  match goal with
  | |- context [VRRenderer.createShaderProgram ?v ?f ?m0] =>
      pose proof (createShaderProgram_env v f m0) as (calls & lines & _ & _ & Henv);
      destruct (VRRenderer.createShaderProgram v f m0) as [program m1]
  end.
  cbn [snd env] in Henv.
  cbn [VRRenderer.shaderProgram VRRenderer.set_shaderProgram].
  destruct (decide (program = 0)) as [Hzero | Hnonzero].
  - rewrite run_log_print. unfold ret. cbn. discriminate.
  - repeat step_plain.
    rewrite run_createTexture. cbn [trace logs gl frameCount env answer].
    rewrite run_createTexture. cbn [trace logs gl frameCount env answer].
    rewrite run_log_print. unfold ret.
    cbn [fst snd trace logs gl frameCount env
         VRRenderer.shaderProgram VRRenderer.vao VRRenderer.vbo
         VRRenderer.set_shaderProgram VRRenderer.set_geometry
         VRRenderer.set_leftEyeTexture VRRenderer.set_rightEyeTexture].
    intros _. split; [exact Hnonzero |]. split; [| exact Henv].
    rewrite !filter_app. cbn.
    rewrite ?(decide_True (P := True)) by exact I.
    rewrite ?(decide_False (P := False)) by (intros []).
    cbn. rewrite !app_nil_r. apply last_snoc.
Qed.

(** X21: [renderEye] after a successful [initialize]: it issues glViewport
    with exactly the rectangle it is given (no size is checked), selects
    texture unit 0, binds the eye texture, looks up uTexture in the
    renderer's program, which is not 0, sets it to unit 0 and draws three
    vertices, and writes nothing to the log.  These six calls are all it
    issues; none binds a vertex array, so the draw is issued while the
    array last bound is 0, the binding [initialize] ends on, and not the
    array [initialize] filled with the triangle. *)
Theorem renderEye_draws_with_array_zero (eyeTexture x y width height : Z)
    (r : VRRenderer.t) (m : Machine) :
  fst (eval (VRRenderer.initialize r) m) = true ->
  let r' := snd (eval (VRRenderer.initialize r) m) in
  let m1 := exec (VRRenderer.initialize r) m in
  let m2 := exec (VRRenderer.renderEye eyeTexture x y width height r') m1 in
  VRRenderer.shaderProgram r' <> 0
  /\ (exists texLocation,
        trace m2
        = trace m1
          ++ [glViewport x y width height; glActiveTexture GL_TEXTURE0;
              glBindTexture GL_TEXTURE_2D eyeTexture;
              glGetUniformLocation (VRRenderer.shaderProgram r') "uTexture";
              glUniform1i texLocation 0; glDrawArrays GL_TRIANGLES 0 3])
  /\ logs m2 = logs m1
  /\ last (filter is_bind_vertex_array (trace m2))
     = Some (glBindVertexArray 0).
Proof.
  intros Hok r' m1 m2.
  destruct (initialize_unbinds_array r m Hok) as (Hprog & Hlast & _).
  fold r' m1 in Hprog, Hlast. unfold m2. clearbody r' m1. clear m2.
  unfold VRRenderer.renderEye. run_all.
  split; [exact Hprog |].
  split; [eexists; rewrite <- !app_assoc; reflexivity |].
  split; [reflexivity |].
  rewrite !filter_app. cbn. rewrite !app_nil_r. exact Hlast.
Qed.

Lemma renderEye_draws_with_array_zero_witness :
  let r' := snd (eval (VRRenderer.initialize VRRenderer.new)
                      (machine0 env_ok)) in
  let m1 := exec (VRRenderer.initialize VRRenderer.new) (machine0 env_ok) in
  VRRenderer.vao r' <> 0
  /\ last (filter is_bind_vertex_array
             (trace (exec (VRRenderer.renderEye
                             (VRRenderer.leftEyeTexture r') 0 0 1024 1024 r')
                          m1)))
     = Some (glBindVertexArray 0).
Proof.
  intros r' m1. split; [vm_compute; discriminate |].
  destruct (renderEye_draws_with_array_zero
              (VRRenderer.leftEyeTexture r') 0 0 1024 1024
              VRRenderer.new (machine0 env_ok))
    as (_ & _ & _ & Hlast); [reflexivity |].
  exact Hlast.
Defined.

(** ** JNI: creating twice *)

(** X22: [nativeOnCreate] replaces whatever renderer the pointer held by a fresh
    one, without releasing anything.  A frame requested right after it is
    refused by the window guard: no call is issued, only the error line is
    logged, until a surface is attached again. *)
Theorem create_resets_session (g : JNI.renderer_ptr) (m : Machine) :
  let res := JNI.invoke_all [JNI.OnCreate; JNI.OnDrawFrame] g m in
  fst res = Some VRRenderer.new
  /\ trace (snd res) = trace m
  /\ gl (snd res) = gl m
  /\ logs (snd res)
     = logs m ++ [mkLog ANDROID_LOG_INFO VRRenderer.LOG_TAG "nativeOnCreate" [];
                  mkLog ANDROID_LOG_ERROR VRRenderer.LOG_TAG
                        "renderFrame: No window!" []].
Proof.
  cbn [JNI.invoke_all JNI.invoke]. unfold JNI.nativeOnCreate,
    JNI.nativeOnDrawFrame, VRRenderer.renderFrame.
  run_all.
  destruct (decide (VRRenderer.no_window VRRenderer.new)) as [_ | Hn];
    [| exfalso; apply Hn; reflexivity].
  run_all. rewrite <- app_assoc. repeat split.
Qed.

(** ** JNI: a successful attach *)

Lemma initializeEGL_true_live (w : Z) (r : VRRenderer.t) (m : Machine) :
  fst (eval (VRRenderer.initializeEGL w r) m) = true ->
  ~ VRRenderer.invalid_egl (snd (eval (VRRenderer.initializeEGL w r) m)).
Proof.
  unfold VRRenderer.initializeEGL, VRRenderer.invalid_egl. run_all.
  case_branches; intros Hok; try discriminate Hok.
  cbn in *. intros [H | [H | H]]; contradiction.
Qed.

Lemma initialize_keeps_egl (r : VRRenderer.t) (m : Machine) :
  let r' := snd (eval (VRRenderer.initialize r) m) in
  VRRenderer.display r' = VRRenderer.display r
  /\ VRRenderer.surface r' = VRRenderer.surface r
  /\ VRRenderer.context r' = VRRenderer.context r.
Proof.
  unfold VRRenderer.initialize. unfold eval, bind, VRRenderer.LOGI,
    VRRenderer.LOGE. rewrite !run_log_print.
  match goal with
  | |- context [VRRenderer.createShaderProgram ?v ?f ?m0] =>
      destruct (VRRenderer.createShaderProgram v f m0) as [program m1]
  end.
  case_decide.
  - rewrite run_log_print. repeat split.
  - repeat step_plain. rewrite !run_createTexture.
    rewrite run_log_print. repeat split.
Qed.

(** X23: When the [initializeEGL] inside [nativeOnSurfaceCreated] succeeds on a
    non-null window, the renderer it leaves passes both guards of
    [renderFrame], whether or not the shaders compiled: the next
    [nativeOnDrawFrame] clears and swaps on the display and surface just
    created. *)
Theorem attach_success_renders (surface : Z) (r : VRRenderer.t) (m : Machine) :
  let w := env_ret (env m) (trace m) (ANativeWindow_fromSurface surface) in
  let m0 :=
    mkMachine (trace m ++ [ANativeWindow_fromSurface surface])
              (logs m ++ [mkLog ANDROID_LOG_INFO VRRenderer.LOG_TAG
                                "nativeOnSurfaceCreated" []])
              (gl m) (frameCount m) (env m) in
  let attached := JNI.nativeOnSurfaceCreated surface (Some r) m in
  w <> nullptr ->
  fst (eval (VRRenderer.initializeEGL w r) m0) = true ->
  exists r',
    fst attached = Some r'
    /\ ~ VRRenderer.no_window r' /\ ~ VRRenderer.invalid_egl r'
    /\ filter is_swap
         (trace (snd (JNI.nativeOnDrawFrame (fst attached) (snd attached))))
       = filter is_swap (trace (snd attached))
         ++ [eglSwapBuffers (VRRenderer.display r') (VRRenderer.surface r')].
Proof.
  intros w m0 attached Hw Hok.
  pose proof (initializeEGL_true_live w r m0 Hok) as Hlive.
  pose proof (initializeEGL_window w r m0) as Hwin.
  assert (Hattached :
    attached
    = (let egl := VRRenderer.initializeEGL w r m0 in
       let init := VRRenderer.initialize (snd (fst egl)) (snd egl) in
       (Some (snd (fst init)), snd init))).
  { unfold attached, JNI.nativeOnSurfaceCreated, VRRenderer.LOGI, bind.
    rewrite run_log_print. rewrite run_api_plain by reflexivity.
    cbn [trace logs gl frameCount env]. fold w. fold m0.
    destruct (VRRenderer.initializeEGL w r m0) as [[ok1 r1] m1].
    cbn [fst snd]. destruct (VRRenderer.initialize r1 m1) as [[ok2 r2] m2].
    reflexivity. }
  unfold eval in *.
  destruct (VRRenderer.initializeEGL w r m0) as [[ok1 r1] m1].
  cbn [fst snd] in *.
  pose proof (initialize_keeps_egl r1 m1) as (Hd & Hs & Hc).
  pose proof (initialize_window r1 m1) as Hwin2.
  unfold eval in *.
  destruct (VRRenderer.initialize r1 m1) as [[ok2 r2] m2].
  cbn [fst snd] in *. rewrite Hattached. cbn [fst snd].
  assert (Hnw : ~ VRRenderer.no_window r2)
    by (unfold VRRenderer.no_window; congruence).
  assert (Hegl : ~ VRRenderer.invalid_egl r2)
    by (unfold VRRenderer.invalid_egl in *; rewrite Hd, Hs, Hc; exact Hlive).
  exists r2. split; [reflexivity |]. split; [exact Hnw |].
  split; [exact Hegl |].
  unfold JNI.nativeOnDrawFrame, bind, VRRenderer.renderFrame.
  rewrite decide_False by exact Hnw. rewrite decide_False by exact Hegl.
  run_all. cbn [driver_step gl_step]. case_branches.
  all: rewrite ?filter_app; cbn;
    rewrite ?(decide_True (P := True)) by exact I;
    rewrite ?(decide_False (P := False)) by (intros []);
    rewrite ?app_nil_r; reflexivity.
Qed.

Lemma attach_success_renders_witness :
  exists r',
    fst (JNI.nativeOnSurfaceCreated 7 (Some VRRenderer.new) (machine0 env_ok))
    = Some r'
    /\ ~ VRRenderer.no_window r' /\ ~ VRRenderer.invalid_egl r'.
Proof.
  destruct (attach_success_renders 7 VRRenderer.new (machine0 env_ok))
    as (r' & Hptr & Hnw & Hegl & _); [discriminate | reflexivity |].
  exists r'. split; [exact Hptr |]. split; [exact Hnw | exact Hegl].
Defined.

(** ** JNI: a frame after a failed attach *)

Lemma initializeEGL_current_failed (w : Z) (r : VRRenderer.t) (m : Machine) :
  logs (exec (VRRenderer.initializeEGL w r) m)
  = logs m ++ [mkLog ANDROID_LOG_ERROR VRRenderer.LOG_TAG
                     "Failed to make EGL context current" []] ->
  fst (eval (VRRenderer.initializeEGL w r) m) = false
  /\ ~ VRRenderer.invalid_egl (snd (eval (VRRenderer.initializeEGL w r) m)).
Proof.
  unfold VRRenderer.initializeEGL, VRRenderer.invalid_egl. run_all.
  case_branches; intros Hlog; apply app_inv_head in Hlog;
    try discriminate Hlog.
  cbn in *. split; [reflexivity |]. intros [H | [H | H]]; contradiction.
Qed.

Lemma renderFrame_valid (r : VRRenderer.t) (m : Machine) :
  ~ VRRenderer.no_window r -> ~ VRRenderer.invalid_egl r ->
  exists tail lines,
    trace (exec (VRRenderer.renderFrame r) m)
    = trace m ++ frame_calls r ++ tail
    /\ logs (exec (VRRenderer.renderFrame r) m) = logs m ++ lines
    /\ filter is_refusal lines = [].
Proof.
  intros Hw He. unfold VRRenderer.renderFrame, frame_calls.
  rewrite decide_False by assumption. rewrite decide_False by assumption.
  run_monad. cbn [driver_step gl_step]. rewrite clear_mask_has_color_bit.
  case_branches.
  all: rewrite <- ?app_assoc; cbn [app].
  all: eexists _, _; split; [reflexivity |].
  all: split; [first [reflexivity | symmetry; apply app_nil_r] | reflexivity].
Qed.

(** C7: the specification asks that a frame requested before an attach
    has succeeded is refused: an error is logged and nothing is drawn or
    swapped.  The guards of [renderFrame] only look at the four handles,
    [initializeEGL] stores each handle as soon as it has it, and
    [nativeOnSurfaceCreated] drops the result of [initializeEGL].  So when
    the attach fails at its last step, eglMakeCurrent, with a non-null
    window: [initializeEGL] has returned false and logged the failure, the
    renderer the callback leaves passes both guards, and the next
    [nativeOnDrawFrame] clears and swaps buffers on the display and surface
    of the failed attach, without either refusal line in the log. *)
Theorem C7_frame_after_failed_attach (surface : Z) (r : VRRenderer.t)
    (m : Machine) :
  let w := env_ret (env m) (trace m) (ANativeWindow_fromSurface surface) in
  let m0 :=
    mkMachine (trace m ++ [ANativeWindow_fromSurface surface])
              (logs m ++ [mkLog ANDROID_LOG_INFO VRRenderer.LOG_TAG
                                "nativeOnSurfaceCreated" []])
              (gl m) (frameCount m) (env m) in
  let attached := JNI.nativeOnSurfaceCreated surface (Some r) m in
  let frame := JNI.nativeOnDrawFrame (fst attached) (snd attached) in
  w <> nullptr ->
  logs (exec (VRRenderer.initializeEGL w r) m0)
  = logs m0 ++ [mkLog ANDROID_LOG_ERROR VRRenderer.LOG_TAG
                      "Failed to make EGL context current" []] ->
  fst (eval (VRRenderer.initializeEGL w r) m0) = false
  /\ exists r' tail lines,
       fst attached = Some r'
       /\ ~ VRRenderer.no_window r' /\ ~ VRRenderer.invalid_egl r'
       /\ trace (snd frame)
          = trace (snd attached) ++ frame_calls r' ++ tail
       /\ logs (snd frame) = logs (snd attached) ++ lines
       /\ filter is_refusal lines = [].
Proof.
  intros w m0 attached frame Hw Hlog.
  destruct (initializeEGL_current_failed w r m0 Hlog) as [Hfalse Hlive].
  split; [exact Hfalse |].
  pose proof (initializeEGL_window w r m0) as Hwin.
  assert (Hattached :
    attached
    = (let egl := VRRenderer.initializeEGL w r m0 in
       let init := VRRenderer.initialize (snd (fst egl)) (snd egl) in
       (Some (snd (fst init)), snd init))).
  { unfold attached, JNI.nativeOnSurfaceCreated, VRRenderer.LOGI, bind.
    rewrite run_log_print. rewrite run_api_plain by reflexivity.
    cbn [trace logs gl frameCount env]. fold w. fold m0.
    destruct (VRRenderer.initializeEGL w r m0) as [[ok1 r1] m1].
    cbn [fst snd]. destruct (VRRenderer.initialize r1 m1) as [[ok2 r2] m2].
    reflexivity. }
  clear Hlog Hfalse. unfold eval in *.
  destruct (VRRenderer.initializeEGL w r m0) as [[ok1 r1] m1].
  cbn [fst snd] in *.
  pose proof (initialize_keeps_egl r1 m1) as (Hd & Hs & Hc).
  pose proof (initialize_window r1 m1) as Hwin2.
  unfold eval in *.
  destruct (VRRenderer.initialize r1 m1) as [[ok2 r2] m2].
  cbn [fst snd] in *. unfold frame. rewrite Hattached. cbn [fst snd].
  assert (Hnw : ~ VRRenderer.no_window r2)
    by (unfold VRRenderer.no_window; congruence).
  assert (Hegl : ~ VRRenderer.invalid_egl r2)
    by (unfold VRRenderer.invalid_egl in *; rewrite Hd, Hs, Hc; exact Hlive).
  destruct (renderFrame_valid r2 m2 Hnw Hegl) as (tail & lines & Ht & Hl & Hf).
  exists r2, tail, lines.
  split; [reflexivity |]. split; [exact Hnw |]. split; [exact Hegl |].
  unfold JNI.nativeOnDrawFrame, bind. unfold exec in Ht, Hl.
  destruct (VRRenderer.renderFrame r2 m2) as [r3 m3]. cbn [fst snd] in *.
  split; [exact Ht |]. split; [exact Hl | exact Hf].
Qed.

Lemma C7_frame_after_failed_attach_witness :
  let created :=
    mkMachine [] [mkLog ANDROID_LOG_INFO VRRenderer.LOG_TAG "nativeOnCreate" []]
              gl_init 0 env_no_current in
  let attached := JNI.nativeOnSurfaceCreated 7 (Some VRRenderer.new) created in
  let frame := JNI.nativeOnDrawFrame (fst attached) (snd attached) in
  JNI.nativeOnCreate None (machine0 env_no_current)
  = (Some VRRenderer.new, created)
  /\ fst attached = Some (VRRenderer.mk 2 7 8 1 18 25 26 35 41 0 0 0 O)
  /\ filter is_error (logs (snd frame))
     = [mkLog ANDROID_LOG_ERROR VRRenderer.LOG_TAG
              "Failed to make EGL context current" []]
  /\ filter is_swap (trace (snd frame)) = [eglSwapBuffers 2 7]
  /\ exists r' tail lines,
       fst attached = Some r'
       /\ ~ VRRenderer.no_window r' /\ ~ VRRenderer.invalid_egl r'
       /\ trace (snd frame) = trace (snd attached) ++ frame_calls r' ++ tail
       /\ logs (snd frame) = logs (snd attached) ++ lines
       /\ filter is_refusal lines = [].
Proof.
  intros created attached frame. split; [reflexivity |].
  split; [lazy; reflexivity |]. split; [lazy; reflexivity |].
  split; [lazy; reflexivity |].
  destruct (C7_frame_after_failed_attach 7 VRRenderer.new created)
    as [_ Hframe]; [vm_compute; discriminate | vm_compute; reflexivity |].
  exact Hframe.
Defined.
